(** * Shallow embedding of the BullMQ PDF-processing worker
    (src/workers/pdf-processor.worker.ts) and properties of its runs.

    The worker's processor is modelled as a computation in a small
    state-and-error monad over a [World] (Document Record, its log of
    [db.update(...).set({...})] writes, the local file system, the BullMQ
    job progress and the Firebase upload calls).  The behaviour of the
    external collaborators (fetch, fs, PDFLoader, pdf-lib, sharp, Firebase)
    is given by an [Env] of oracles.  The interleaving chosen by
    [pLimit(2)] is given as the order in which page tasks complete; each
    page task's effects are applied when it completes. *)

From Stdlib Require Import List String Ascii Arith Lia Bool Sorting.Sorted
  Sorting.Permutation NArith ZArith.
Import ListNotations.
Open Scope string_scope.
Open Scope nat_scope.
Set Warnings "-register-all".

(** ** Data *)

(** Values handed to [JSON.stringify]. *)
Inductive json : Type :=
| JNull
| JBool (b : bool)
| JNum (n : nat)
| JStr (s : string)
| JArr (xs : list json)
| JObj (kvs : list (string * json)).

(** Contents of a file on the local disk. *)
Inductive content : Type :=
| Raw (tag : string)          (* bytes: PDF or single-page PDF *)
| JsonDoc (j : json).         (* JSON.stringify(j, null, 2) *)

(** The processing-state columns of a row of [documents]. *)
Record DocRecord := mkDoc {
  updatedAt : option nat;
  processingProgress : nat;
  processingComplete : bool;
  processingError : option string
}.

(** The object passed to [db.update(documents).set({...})]:
    [None] means the key is absent from the object. *)
Record DocUpdate := mkUpd {
  set_updatedAt : option nat;
  set_processingProgress : option nat;
  set_processingComplete : option bool;
  set_processingError : option string
}.

Definition upd_field {A} (o : option A) (old : A) : A :=
  match o with Some v => v | None => old end.

Definition apply_update (d : DocRecord) (u : DocUpdate) : DocRecord :=
  mkDoc (match set_updatedAt u with Some t => Some t | None => updatedAt d end)
        (upd_field (set_processingProgress u) (processingProgress d))
        (upd_field (set_processingComplete u) (processingComplete d))
        (match set_processingError u with Some e => Some e | None => processingError d end).

Record World := mkWorld {
  doc : DocRecord;                    (* the row [documents.id = documentId] *)
  dbLog : list DocUpdate;             (* the [.set({...})] objects, in order *)
  files : list (string * content);    (* the local file system *)
  fsWrites : list string;             (* paths passed to fs.writeFile *)
  jobProgress : list nat;             (* job.updateProgress(...) calls *)
  uploads : list nat;                 (* pages passed to uploadBytes *)
  clock : nat                         (* value of [new Date()] *)
}.

(** Behaviour of the collaborators for one run. *)
Record Env := mkEnv {
  env_cwd : string;                   (* process.cwd() *)
  env_fetch : string + string;        (* inl body when response.ok, inr statusText *)
  env_write_ok : string -> bool;      (* fs.writeFile(path, _) resolves *)
  env_load : nat + string;            (* PDFLoader.load(): inl docs.length, inr error message *)
  env_split_ok : nat -> bool;         (* pdf-lib load/copyPages/save for a page *)
  env_sharp_ok : nat -> bool;         (* sharp(...).toFormat('png').toBuffer() *)
  env_upload_ok : nat -> nat -> bool; (* uploadBytes for a page, at its n-th call *)
  env_url : nat -> string             (* getDownloadURL for a page *)
}.

Record JobData := mkJob { documentId : string; fileUrl : string }.

Record JobResult := mkResult {
  res_success : bool;
  res_documentId : string;
  res_pageCount : nat
}.

(** ** A state-and-error monad *)

Inductive result (A : Type) : Type :=
| Ok (a : A)
| Err (msg : string).
Arguments Ok {A} a.
Arguments Err {A} msg.

Definition M (A : Type) : Type := World -> World * result A.

Definition ret {A} (a : A) : M A := fun w => (w, Ok a).

Definition bind {A B} (m : M A) (k : A -> M B) : M B :=
  fun w => match m w with
           | (w', Ok a) => k a w'
           | (w', Err e) => (w', Err e)
           end.

Definition throw {A} (e : string) : M A := fun w => (w, Err e).

(** [try { m } catch (error) { h(error.message) }] *)
Definition try_catch {A} (m : M A) (h : string -> M A) : M A :=
  fun w => match m w with
           | (w', Ok a) => (w', Ok a)
           | (w', Err e) => h e w'
           end.

(** A promise observed through [Promise.allSettled]: never rejects. *)
Definition settle {A} (m : M A) : M (result A) :=
  fun w => let (w', r) := m w in (w', Ok r).

Notation "x <- m ;; k" := (bind m (fun x => k))
  (at level 61, m at next level, right associativity).
Notation "m ;; k" := (bind m (fun _ => k))
  (at level 61, right associativity).

(** ** Collaborators *)

Definition set_doc (w : World) (d : DocRecord) (l : list DocUpdate) : World :=
  mkWorld d l (files w) (fsWrites w) (jobProgress w) (uploads w) (clock w).
Definition set_files (w : World) (fs : list (string * content)) (ws : list string) : World :=
  mkWorld (doc w) (dbLog w) fs ws (jobProgress w) (uploads w) (clock w).
Definition set_jobProgress (w : World) (l : list nat) : World :=
  mkWorld (doc w) (dbLog w) (files w) (fsWrites w) l (uploads w) (clock w).
Definition set_uploads (w : World) (l : list nat) : World :=
  mkWorld (doc w) (dbLog w) (files w) (fsWrites w) (jobProgress w) l (clock w).

Definition fs_remove (path : string) (fs : list (string * content)) :=
  filter (fun pc => negb (String.eqb (fst pc) path)) fs.
Definition fs_put (path : string) (c : content) (fs : list (string * content)) :=
  (path, c) :: fs_remove path fs.
Definition fs_exists (path : string) (fs : list (string * content)) : bool :=
  existsb (fun pc => String.eqb (fst pc) path) fs.
Definition fs_read (path : string) (fs : list (string * content)) : option content :=
  option_map snd (find (fun pc => String.eqb (fst pc) path) fs).

(** Decimal rendering of a page number inside a template literal. *)
Fixpoint digits_aux (fuel n : nat) (acc : string) : string :=
  match fuel with
  | 0 => acc
  | S f =>
      let acc' := String (ascii_of_nat (48 + n mod 10)) acc in
      if n <? 10 then acc' else digits_aux f (n / 10) acc'
  end.
Definition nat_to_string (n : nat) : string := digits_aux (S n) n "".

Section Binary64.
Local Open Scope Z_scope.

(** A finite non-negative double [x] is represented by the integer
    [x * 2^1074]: every double is a multiple of [2^-1074]. *)
Definition scale : Z := 2 ^ 1074.

(** [n / d] rounded to the nearest integer, ties to even. *)
Definition rne_div (n d : Z) : Z :=
  let q := n / d in
  let r := n mod d in
  match Z.compare (2 * r) d with
  | Lt => q
  | Gt => q + 1
  | Eq => if Z.even q then q else q + 1
  end.

(** The non-negative quotient [n / d] (scaled, [d > 0]) rounded to
    binary64, round-to-nearest-even: 53 significant bits, the last one
    weighing [2^e] with [e >= -1074]. *)
Definition round_binary64 (n d : Z) : Z :=
  let e := Z.max 0 (Z.log2 (n / d) - 52) in
  rne_div n (d * 2 ^ e) * 2 ^ e.

End Binary64.

(** JavaScript numbers, as far as the progress computation reaches them. *)
Inductive number : Type :=
| Num (x : Z)
| PosInf
| NaN.

(** A rounded result at or beyond [2^1024] overflows to [Infinity]. *)
Definition to_number (x : Z) : number :=
  if (2 ^ 1024 * scale <=? x)%Z then PosInf else Num x.

(** [a / n] for an integer [a] and a count [n] ([a / 0 = Infinity]). *)
Definition num_div (a : Z) (n : nat) : number :=
  if n =? 0 then PosInf else to_number (round_binary64 (a * scale) (Z.of_nat n)).

(** [x * n] for a count [n] ([Infinity * 0 = NaN]). *)
Definition num_mul_nat (x : number) (n : nat) : number :=
  match x with
  | Num a => to_number (round_binary64 (a * Z.of_nat n) 1)
  | PosInf => if n =? 0 then NaN else PosInf
  | NaN => NaN
  end.

(** [k + x] for an integer [k >= 0]. *)
Definition num_add_int (k : Z) (x : number) : number :=
  match x with
  | Num a => to_number (round_binary64 (k * scale + a) 1)
  | y => y
  end.

(** [Math.min(k, x)] for an integer [k]. *)
Definition num_min_int (k : Z) (x : number) : number :=
  match x with
  | Num a => Num (Z.min (k * scale) a)
  | PosInf => Num (k * scale)
  | NaN => NaN
  end.

(** [Math.round(x) = floor(x + 1/2)]; [Math.round(NaN)] is [NaN], which
    only [pageCount = pageNumber = 0] produces and is stored as 0 here. *)
Definition math_round (x : number) : nat :=
  match x with
  | Num a => Z.to_nat ((a + scale / 2) / scale)
  | _ => 0
  end.

(** [Math.round(Math.min(95, 15 + (80 / pageCount) * pageNumber))] in
    IEEE-754 double precision. *)
Definition progress_value (pageCount pageNumber : nat) : nat :=
  math_round (num_min_int 95 (num_add_int 15
    (num_mul_nat (num_div 80 pageCount) pageNumber))).

(** Rounding to a multiple of [2^e], the last bit of a binary64 at that exponent. *)
Definition rnd_at (e x : Z) : Z := (rne_div x (2 ^ e) * 2 ^ e)%Z.

(** Order on the numbers the progress pipeline produces. *)
Definition number_le (x y : number) : Prop :=
  match x, y with
  | Num a, Num b => (0 <= a <= b)%Z
  | Num a, PosInf => (0 <= a)%Z
  | PosInf, PosInf | NaN, NaN => True
  | _, _ => False
  end.

(** The progress pipeline applied to the value of [80 / pageCount]. *)
Definition progress_of (x : number) (p : nat) : nat :=
  math_round (num_min_int 95 (num_add_int 15 (num_mul_nat x p))).

Ltac nsimpl :=
  cbn [number_le num_min_int math_round num_add_int num_mul_nat Nat.eqb] in *.

(** The JSON written to [data/<documentId>_firebase_images.json]. *)
Definition image_json (r : nat * string) : json :=
  JObj [("pageNumber", JNum (fst r)); ("firebaseUrl", JStr (snd r))].
Definition artifact_json (id : string) (pageCount : nat)
    (images : list (nat * string)) : json :=
  JObj [("documentId", JStr id); ("pageCount", JNum pageCount);
        ("images", JArr (map image_json images))].

(** [Array.prototype.sort] with comparator [a.pageNumber - b.pageNumber]
    (a stable sort; insertion sort here). *)
Fixpoint insert_by_page (r : nat * string) (l : list (nat * string)) :=
  match l with
  | [] => [r]
  | x :: xs => if fst x <=? fst r then x :: insert_by_page r xs else r :: x :: xs
  end.
Fixpoint sort_by_page (l : list (nat * string)) : list (nat * string) :=
  match l with
  | [] => []
  | x :: xs => insert_by_page x (sort_by_page xs)
  end.

Section Worker.
Variable env : Env.

Definition tempDir : string := env_cwd env ++ "/temp".
Definition dataDir : string := env_cwd env ++ "/data".
Definition tempFilePath (id : string) : string := tempDir ++ "/" ++ id ++ ".pdf".
Definition singlePagePdfPath (id : string) (p : nat) : string :=
  tempDir ++ "/" ++ id ++ "_page_" ++ nat_to_string p ++ ".pdf".
Definition jsonFilePath (id : string) : string :=
  dataDir ++ "/" ++ id ++ "_firebase_images.json".

Definition now : M nat := fun w => (w, Ok (clock w)).

Definition db_update (u : DocUpdate) : M unit :=
  fun w => (set_doc w (apply_update (doc w) u) (dbLog w ++ [u])%list, Ok tt).

Definition writeFile (path : string) (c : content) : M unit :=
  fun w => if env_write_ok env path
           then (set_files w (fs_put path c (files w)) (fsWrites w ++ [path])%list, Ok tt)
           else (w, Err ("EIO: i/o error, write '" ++ path ++ "'")).

Definition unlink (path : string) : M unit :=
  fun w => if fs_exists path (files w)
           then (set_files w (fs_remove path (files w)) (fsWrites w), Ok tt)
           else (w, Err ("ENOENT: no such file or directory, unlink '" ++ path ++ "'")).

Definition updateProgress (n : nat) : M unit :=
  fun w => (set_jobProgress w (jobProgress w ++ [n])%list, Ok tt).

Definition fetch_pdf : M (string + string) := ret (env_fetch env).

Definition loader_load : M nat :=
  match env_load env with inl n => ret n | inr e => throw e end.

(** [uploadBytes(ref(storage, ...), pngBuffer)]: the n-th call for a page
    behaves as [env_upload_ok env p n]. *)
Definition uploadBytes (p : nat) : M unit :=
  fun w => let w' := set_uploads w (uploads w ++ [p])%list in
           if env_upload_ok env p (count_occ Nat.eq_dec (uploads w) p)
           then (w', Ok tt)
           else (w', Err "storage/unknown").

Definition getDownloadURL (p : nat) : M string := ret (env_url env p).

(** ** [processPage] (lines 80-128) *)
Definition processPage (id : string) (pageCount pageNumber : nat) : M (nat * string) :=
  try_catch
    ((* PDFDocument.load / create / copyPages / save *)
     (if env_split_ok env pageNumber then ret tt else throw "pdf-lib: cannot copy page") ;;
     writeFile (singlePagePdfPath id pageNumber) (Raw ("page " ++ nat_to_string pageNumber)) ;;
     (* sharp(singlePagePdfPath, { density: 300 }).toFormat('png').toBuffer() *)
     (if env_sharp_ok env pageNumber then ret tt else throw "sharp: cannot render page") ;;
     uploadBytes pageNumber ;;
     firebaseUrl <- getDownloadURL pageNumber ;;
     unlink (singlePagePdfPath id pageNumber) ;;
     t <- now ;;
     db_update (mkUpd (Some t) (Some (progress_value pageCount pageNumber)) None None) ;;
     ret (pageNumber, firebaseUrl))
    (fun e => throw e).

(** The page tasks, applied in the order in which they complete. *)
Fixpoint run_pages (id : string) (pageCount : nat) (order : list nat)
  : M (list (nat * result (nat * string))) :=
  match order with
  | [] => ret []
  | p :: rest =>
      r <- settle (processPage id pageCount p) ;;
      rs <- run_pages id pageCount rest ;;
      ret ((p, r) :: rs)
  end.

Fixpoint lookup_result (p : nat) (l : list (nat * result (nat * string)))
  : option (result (nat * string)) :=
  match l with
  | [] => None
  | (q, r) :: l' => if q =? p then Some r else lookup_result p l'
  end.

(** [results.filter(fulfilled).map(r => r.value)], [results] being
    aligned with [pageNumbers] as [Promise.allSettled] returns it. *)
Definition successfulResults (pageNumbers : list nat)
    (results : list (nat * result (nat * string))) : list (nat * string) :=
  flat_map (fun p => match lookup_result p results with
                     | Some (Ok v) => [v]
                     | _ => []
                     end) pageNumbers.

(** ** The processor (lines 37-198).  [fs.mkdir(..., {recursive: true})]
    is a no-op on the modelled file system. *)
Definition processor_body (job : JobData) (order : list nat) : M JobResult :=
  let id := documentId job in
    (response <- fetch_pdf ;;
     match response with
     | inr statusText => throw ("Failed to fetch PDF: " ++ statusText)
     | inl pdfBuffer =>
         writeFile (tempFilePath id) (Raw pdfBuffer) ;;
         updateProgress 10 ;;
         pageCount <- loader_load ;;
         updateProgress 15 ;;
         results <- run_pages id pageCount order ;;
         let pageNumbers := seq 1 pageCount in
         let ok := successfulResults pageNumbers results in
         updateProgress 95 ;;
         writeFile (jsonFilePath id)
           (JsonDoc (artifact_json id pageCount (sort_by_page ok))) ;;
         unlink (tempFilePath id) ;;
         t <- now ;;
         db_update (mkUpd (Some t) (Some 100) (Some true) None) ;;
         updateProgress 100 ;;
         ret (mkResult true id pageCount)
     end).

(** The [catch (error)] block (lines 185-197). *)
Definition error_update (t : nat) (e : string) : DocUpdate := mkUpd (Some t) None None (Some e).

Definition processor_catch (e : string) : M JobResult :=
  t <- now ;;
  db_update (error_update t e) ;;
  throw e.

Definition worker_processor (job : JobData) (order : list nat) : M JobResult :=
  try_catch (processor_body job order) processor_catch.

End Worker.

(** A job execution starts from a Document Record and a file system;
    the logs record what this execution does. *)
Definition init_world (d : DocRecord) (fs : list (string * content)) (t : nat) : World :=
  mkWorld d [] fs [] [] [] t.

Definition run_job (env : Env) (job : JobData) (order : list nat)
    (d : DocRecord) (fs : list (string * content)) (t : nat) : World * result JobResult :=
  worker_processor env job order (init_world d fs t).

(** Progress values written to the Document Record, in order. *)
Definition progress_writes (w : World) : list nat :=
  flat_map (fun u => match set_processingProgress u with Some n => [n] | None => [] end)
           (dbLog w).

(** Contents of the artifact file, when it is a JSON document. *)
Definition artifact (env : Env) (id : string) (w : World) : option json :=
  match fs_read (jsonFilePath env id) (files w) with
  | Some (JsonDoc j) => Some j
  | _ => None
  end.

(** Orders in which [pLimit(W)] lets the page tasks complete: a
    permutation of [1..N] whose i-th completed task (from 0) is among the
    first [i + W] started ones. *)
Fixpoint limit_order_ok (W i : nat) (order : list nat) : bool :=
  match order with
  | [] => true
  | p :: rest => (p <=? i + W) && limit_order_ok W (S i) rest
  end.

(** ** Auxiliary definitions for the statements *)

Section Pages.
Variable env : Env.
Variable id : string.

(** A page task reaches its upload (pdf-lib, fs.writeFile, sharp succeed). *)
Definition page_pre_ok (p : nat) : bool :=
  env_split_ok env p && env_write_ok env (singlePagePdfPath env id p) && env_sharp_ok env p.

(** A page task resolves, its first (and only) upload succeeding. *)
Definition page_ok (p : nat) : bool := page_pre_ok p && env_upload_ok env p 0.

(** The update written by a page task that resolves. *)
Definition page_update (t pageCount p : nat) : DocUpdate :=
  mkUpd (Some t) (Some (progress_value pageCount p)) None None.

End Pages.

(** The settled outcome of a page task that has not been uploaded before. *)
Definition page_outcome (env : Env) (id : string) (p : nat) : result (nat * string) :=
  if env_split_ok env p then
    if env_write_ok env (singlePagePdfPath env id p) then
      if env_sharp_ok env p then
        if env_upload_ok env p 0 then Ok (p, env_url env p) else Err "storage/unknown"
      else Err "sharp: cannot render page"
    else Err ("EIO: i/o error, write '" ++ singlePagePdfPath env id p ++ "'")
  else Err "pdf-lib: cannot copy page".

Arguments fs_remove : simpl never.
Arguments fs_put : simpl never.
Arguments nat_to_string : simpl never.
Arguments fs_exists : simpl never.
Arguments fs_read : simpl never.
(** ** Concrete environments *)

(** Collaborators that all succeed, except where the arguments say. *)
Definition sample_env (pages : nat) (sharp_ok : nat -> bool) (upload_ok : nat -> nat -> bool) : Env :=
  mkEnv "/app" (inl "%PDF-1.7") (fun _ => true) (inl pages) (fun _ => true) sharp_ok
        upload_ok (fun p => "https://firebasestorage.googleapis.com/page_" ++ nat_to_string p).

Definition sample_job : JobData := mkJob "7" "https://utfs.io/f/7.pdf".
Definition fresh_doc : DocRecord := mkDoc None 0 false None.

(** The spec's progress formula: [min(95, 15 + round(80 * k / N))]. *)
Definition claimed_progress (N k : nat) : nat :=
  Nat.min 95 (15 + (2 * 80 * k + N) / (2 * N)).

Definition json_keys (j : json) : list string :=
  match j with JObj kvs => map fst kvs | _ => [] end.

Definition env_all_ok (pages : nat) : Env := sample_env pages (fun _ => true) (fun _ _ => true).
(** sharp throws on page 2. *)
Definition env_page2_fails : Env := sample_env 2 (fun p => negb (p =? 2)) (fun _ _ => true).
(** The first uploadBytes call for a page fails, any later call succeeds. *)
Definition env_upload_flaky : Env := sample_env 1 (fun _ => true) (fun _ n => negb (n =? 0)).
(** PDFLoader throws after the temp PDF was written. *)
Definition env_loader_crash : Env :=
  mkEnv "/app" (inl "%PDF-1.7") (fun _ => true) (inr "Invalid PDF structure")
        (fun _ => true) (fun _ => true) (fun _ _ => true) (fun _ => "").

(** Which runs end in the worker's [catch] block for a job-level reason. *)
Definition job_level_failure (env : Env) (id : string) : Prop :=
  (exists st, env_fetch env = inr st) \/
  (exists b, env_fetch env = inl b /\ env_write_ok env (tempFilePath env id) = false) \/
  (exists b e, env_fetch env = inl b /\ env_write_ok env (tempFilePath env id) = true /\
               env_load env = inr e) \/
  (exists b N, env_fetch env = inl b /\ env_write_ok env (tempFilePath env id) = true /\
               env_load env = inl N /\ env_write_ok env (jsonFilePath env id) = false).

(** ** Queue retries (lines 21-32: [attempts: 3], exponential backoff
    from 5000 ms).  BullMQ runs the processor again after a rejection
    while fewer than [attempts] runs were made; each run sees the
    Document Record and the file system the previous run left, and its
    own collaborators and completion order. *)

Definition queue_attempts : nat := 3.

(** BullMQ's exponential backoff: [delay * 2 ^ (attemptsMade - 1)]. *)
Definition backoff_delay (attemptsMade : nat) : nat := 5000 * 2 ^ (attemptsMade - 1).

Fixpoint attempts_from (attemptsMade left : nat) (runs : list (Env * list nat)) (job : JobData)
    (d : DocRecord) (fs : list (string * content)) (t : nat) : list (World * result JobResult) :=
  match left, runs with
  | S left', (env, order) :: runs' =>
      let '(w, r) := run_job env job order d fs t in
      match r with
      | Ok _ => [(w, r)]
      | Err _ => (w, r) :: attempts_from (S attemptsMade) left' runs' job (doc w) (files w)
                                         (clock w + backoff_delay (S attemptsMade))
      end
  | _, _ => []
  end.

(** The runs of one queued job, in order. *)
Definition process_with_retries (runs : list (Env * list nat)) (job : JobData)
    (d : DocRecord) (fs : list (string * content)) (t : nat) : list (World * result JobResult) :=
  attempts_from 0 queue_attempts runs job d fs t.

(** ** Server actions (src/actions/document.ts, src/unnamed/part_000) *)

(** A JavaScript string: its UTF-16 code units. *)
Definition jsstring : Type := list N.

(** A string literal of the source (all of them are ASCII). *)
Definition js (s : string) : jsstring := map N_of_ascii (list_ascii_of_string s).

(** JavaScript's truthiness of a string: non-empty. *)
Definition js_truthy (s : jsstring) : bool :=
  match s with [] => false | _ :: _ => true end.

(** The argument of [saveDocument]. *)
Record DocumentData := mkDocumentData {
  dd_userId : string;
  dd_title : jsstring;
  dd_fileName : jsstring;
  dd_fileUrl : string;
  dd_fileKey : string;
  dd_fileSize : nat
}.

(** A row inserted into [documents]; [row_id] is what [.returning()] gave. *)
Record DocumentRow := mkRow {
  row_id : option nat;
  row_userId : nat;
  row_title : jsstring;
  row_fileName : jsstring;
  row_fileUrl : string;
  row_fileKey : string;
  row_fileSize : nat
}.

(** [pdfProcessingQueue.add(name, data)]. *)
Record QueueJob := mkQueueJob {
  qj_name : string;
  qj_documentId : nat;
  qj_fileUrl : string;
  qj_fileName : jsstring
}.

Record Server := mkServer {
  users : list (string * nat);        (* rows of [users]: (clerkId, id) *)
  documents : list DocumentRow;       (* rows inserted into [documents] *)
  revalidated : list string;          (* revalidatePath(...) calls *)
  queue : list QueueJob               (* jobs added to the queue *)
}.

(** Behaviour of the database and of the queue for one call. *)
Record ServerEnv := mkServerEnv {
  sv_find_ok : bool;                  (* db.query.users.findFirst resolves *)
  sv_insert : option (option nat);    (* None: the insert throws; Some r: r = result[0]?.id *)
  sv_queue_ok : bool                  (* pdfProcessingQueue.add resolves *)
}.

(** The object [saveDocument] resolves to; [None] is an absent or
    undefined documentId. *)
Record SaveResult := mkSave {
  sr_success : bool;
  sr_message : string;
  sr_documentId : option nat
}.

(** Collaborators the page-text and image steps use. *)
Record ExtEnv := mkExtEnv {
  ext_page_text : nat -> string;                  (* docs[p - 1].pageContent *)
  ext_page_meta : nat -> json;                    (* docs[p - 1].metadata *)
  ext_chunks : string -> option (list string);    (* textSplitter.createDocuments; None: throws *)
  ext_convert : option (list nat) -> option (list string)
    (* pdf2img.convert(path, {page_numbers}) (None: no options); None: throws *)
}.

Definition findFirst_user (s : Server) (clerkId : string) : option nat :=
  option_map snd (find (fun u => String.eqb (fst u) clerkId) (users s)).

Definition insert_row (s : Server) (r : DocumentRow) : Server :=
  mkServer (users s) (documents s ++ [r])%list (revalidated s) (queue s).
Definition revalidatePath (s : Server) (p : string) : Server :=
  mkServer (users s) (documents s) (revalidated s ++ [p])%list (queue s).
Definition queue_add (s : Server) (j : QueueJob) : Server :=
  mkServer (users s) (documents s) (revalidated s) (queue s ++ [j])%list.

Definition new_row (uid : nat) (dd : DocumentData) (id : option nat) : DocumentRow :=
  mkRow id uid (dd_title dd) (dd_fileName dd) (dd_fileUrl dd) (dd_fileKey dd) (dd_fileSize dd).

(** [documentId] when it is truthy (a number other than 0). *)
Definition truthy_id (o : option nat) : option nat :=
  match o with Some (S n) => Some (S n) | _ => None end.

Definition save_failed : SaveResult := mkSave false "Failed to save document" None.

(** [path.join(process.cwd(), 'data', `${documentId}.json`)]. *)
Definition contentJsonPath (env : Env) (id : string) : string := dataDir env ++ "/" ++ id ++ ".json".

(** [db.update(documents).set({ updatedAt: new Date() })]. *)
Definition touch_updatedAt : M unit :=
  t <- now ;; db_update (mkUpd (Some t) None None None).

Definition pdf2img_convert (ext : ExtEnv) (page_numbers : option (list nat)) : M (list string) :=
  match ext_convert ext page_numbers with
  | Some images => ret images
  | None => throw "pdf-img-convert: cannot convert"
  end.

(** *** The queue-based [saveDocument] (document.ts, lines 362-415) *)
Module QueueBased.

Definition saveDocument (senv : ServerEnv) (dd : DocumentData) (s : Server) : Server * SaveResult :=
  if negb (sv_find_ok senv) then (s, save_failed) else
  match findFirst_user s (dd_userId dd) with
  | None => (s, mkSave false "User not found" None)
  | Some uid =>
      match sv_insert senv with
      | None => (s, save_failed)
      | Some oid =>
          let s1 := insert_row s (new_row uid dd oid) in
          match truthy_id oid with
          | None => (s1, mkSave false "Failed to get document ID" None)
          | Some documentId =>
              let s2 := revalidatePath s1 "/chat-with-pdf" in
              if sv_queue_ok senv
              then (queue_add s2 (mkQueueJob "processPdf" documentId (dd_fileUrl dd) (dd_fileName dd)),
                    mkSave true "Document saved successfully. Processing queued in background."
                           (Some documentId))
              else (s2, save_failed)
          end
      end
  end.

End QueueBased.

(** *** The batch-upload [saveDocument] (document.ts, lines 23-183) *)
Module BatchUpload.

Definition batchSize : nat := 20.

(** [Math.ceil(pageCount / batchSize)]. *)
Definition batches (pageCount : nat) : nat := (pageCount + batchSize - 1) / batchSize.

Definition startPage (batchIndex : nat) : nat := batchIndex * batchSize + 1.
Definition endPage (pageCount batchIndex : nat) : nat :=
  Nat.min ((batchIndex + 1) * batchSize) pageCount.

(** [Array.from({ length: endPage - startPage + 1 }, (_, i) => startPage + i)]. *)
Definition pageNumbers (pageCount batchIndex : nat) : list nat :=
  seq (startPage batchIndex) (endPage pageCount batchIndex + 1 - startPage batchIndex).

Section Background.
Variable env : Env.
Variable ext : ExtEnv.

(** [for (let i = 0; i < images.length; i++)]: upload [images[i]] as page
    [startPage + i]. *)
Fixpoint upload_images (pageNumber : nat) (images : list string) : M (list (nat * string)) :=
  match images with
  | [] => ret []
  | _ :: rest =>
      uploadBytes env pageNumber ;;
      firebaseUrl <- getDownloadURL env pageNumber ;;
      refs <- upload_images (S pageNumber) rest ;;
      ret ((pageNumber, firebaseUrl) :: refs)
  end.

(** [for (let batchIndex = ...; batchIndex < batches; batchIndex++)]. *)
Fixpoint run_batches (pageCount fuel batchIndex : nat) : M (list (nat * string)) :=
  match fuel with
  | 0 => ret []
  | S fuel' =>
      images <- pdf2img_convert ext (Some (pageNumbers pageCount batchIndex)) ;;
      refs <- upload_images (startPage batchIndex) images ;;
      rest <- run_batches pageCount fuel' (S batchIndex) ;;
      ret (refs ++ rest)%list
  end.

(** The non-blocking [(async () => { ... })()] (lines 58-170). *)
Definition background (documentId : nat) : M unit :=
  let id := nat_to_string documentId in
  try_catch
    (response <- fetch_pdf env ;;
     match response with
     | inr statusText => throw ("Failed to fetch PDF: " ++ statusText)
     | inl pdfBuffer =>
         writeFile env (tempFilePath env id) (Raw pdfBuffer) ;;
         pageCount <- loader_load env ;;
         imageReferences <- run_batches pageCount (batches pageCount) 0 ;;
         writeFile env (jsonFilePath env id)
           (JsonDoc (JObj [("documentId", JNum documentId); ("pageCount", JNum pageCount);
                           ("images", JArr (map image_json imageReferences))])) ;;
         unlink (tempFilePath env id) ;;
         touch_updatedAt
     end)
    (fun _ => touch_updatedAt).

End Background.

(** The action resolves before its background task runs; the task is
    returned to be run on the document's row. *)
Definition saveDocument (env : Env) (ext : ExtEnv) (senv : ServerEnv) (dd : DocumentData)
    (s : Server) : Server * SaveResult * option (M unit) :=
  if negb (sv_find_ok senv) then (s, save_failed, None) else
  match findFirst_user s (dd_userId dd) with
  | None => (s, mkSave false "User not found" None, None)
  | Some uid =>
      match sv_insert senv with
      | None => (s, save_failed, None)
      | Some oid =>
          let s1 := insert_row s (new_row uid dd oid) in
          match truthy_id oid with
          | None => (s1, mkSave false "Failed to get document ID" None, None)
          | Some documentId =>
              (revalidatePath s1 "/chat-with-pdf",
               mkSave true "Document saved successfully. Processing started in background."
                      (Some documentId),
               Some (background env ext documentId))
          end
      end
  end.

End BatchUpload.

(** *** The [saveDocument] that extracts images inline (document.ts, lines 203-343) *)
Module InlineImages.

Section Processing.
Variable env : Env.
Variable ext : ExtEnv.

(** [path.relative(process.cwd(), imagePath)] of
    [path.join(process.cwd(), 'data', 'images', id, `page_${i}.png`)]. *)
Definition relativeImagePath (id : string) (i : nat) : string :=
  "data/images/" ++ id ++ "/page_" ++ nat_to_string i ++ ".png".
Definition imagePath (id : string) (i : nat) : string :=
  env_cwd env ++ "/" ++ relativeImagePath id i.

(** [Promise.all(pdfImages.map(async (imageBuffer, index) => ...))],
    the writes taken in index order. *)
Fixpoint save_images (id : string) (pageNumber : nat) (images : list string) : M (list (nat * string)) :=
  match images with
  | [] => ret []
  | imageBuffer :: rest =>
      writeFile env (imagePath id pageNumber) (Raw imageBuffer) ;;
      refs <- save_images id (S pageNumber) rest ;;
      ret ((pageNumber, relativeImagePath id pageNumber) :: refs)
  end.

(** [imageReferences.find(img => img.pageNumber === p)?.imagePath || null]. *)
Definition image_for (refs : list (nat * string)) (p : nat) : json :=
  match find (fun r => fst r =? p) refs with
  | Some (_, path) => if String.eqb path "" then JNull else JStr path
  | None => JNull
  end.

Definition page_json (refs : list (nat * string)) (p : nat) : json :=
  JObj [("pageNumber", JNum p); ("content", JStr (ext_page_text ext p));
        ("metadata", ext_page_meta ext p); ("image", image_for refs p)].

Definition image_ref_json (r : nat * string) : json :=
  JObj [("pageNumber", JNum (fst r)); ("imagePath", JStr (snd r))].

(** The inner [try] block (lines 233-324). *)
Definition processing (documentId : nat) : M unit :=
  let id := nat_to_string documentId in
  response <- fetch_pdf env ;;
  match response with
  | inr statusText => throw ("Failed to fetch PDF: " ++ statusText)
  | inl pdfBuffer =>
      writeFile env (tempFilePath env id) (Raw pdfBuffer) ;;
      pageCount <- loader_load env ;;
      pdfImages <- pdf2img_convert ext None ;;
      imageReferences <- save_images id 1 pdfImages ;;
      writeFile env (contentJsonPath env id)
        (JsonDoc (JObj [("documentId", JNum documentId); ("pageCount", JNum pageCount);
                        ("pages", JArr (map (page_json imageReferences) (seq 1 pageCount)));
                        ("images", JArr (map image_ref_json imageReferences))])) ;;
      unlink (tempFilePath env id)
  end.

End Processing.

(** The processing runs before the action returns, on the world [w];
    its errors are caught and only logged. *)
Definition saveDocument (env : Env) (ext : ExtEnv) (senv : ServerEnv) (dd : DocumentData)
    (s : Server) (w : World) : Server * World * SaveResult :=
  if negb (sv_find_ok senv) then (s, w, save_failed) else
  match findFirst_user s (dd_userId dd) with
  | None => (s, w, mkSave false "User not found" None)
  | Some uid =>
      match sv_insert senv with
      | None => (s, w, save_failed)
      | Some oid =>
          let s1 := insert_row s (new_row uid dd oid) in
          let w1 := match truthy_id oid with
                    | Some documentId =>
                        fst (try_catch (processing env ext documentId) (fun _ => ret tt) w)
                    | None => w
                    end in
          (revalidatePath s1 "/chat-with-pdf", w1, mkSave true "Document saved successfully" oid)
      end
  end.

End InlineImages.

(** *** src/unnamed/part_000: [processPDF] and the text-chunking [saveDocument] *)
Module Legacy.

Record PDFProcessingResult := mkPDFResult {
  pr_success : bool;
  pr_message : string;
  pr_pageCount : option nat;
  pr_documentId : option string
}.

Section Processing.
Variable env : Env.
Variable ext : ExtEnv.

(** [processPDF(fileUrl, documentId)] (lines 14-91); the response is
    [env_fetch env]. *)
Definition processPDF (fileUrl documentId : string) : M PDFProcessingResult :=
  try_catch
    (response <- fetch_pdf env ;;
     match response with
     | inr statusText => throw ("Failed to fetch PDF: " ++ statusText)
     | inl pdfBuffer =>
         writeFile env (tempFilePath env documentId) (Raw pdfBuffer) ;;
         pageCount <- loader_load env ;;
         let pagesContent :=
           map (fun p => JObj [("pageNumber", JNum p); ("content", JStr (ext_page_text ext p));
                               ("metadata", ext_page_meta ext p)]) (seq 1 pageCount) in
         writeFile env (contentJsonPath env documentId)
           (JsonDoc (JObj [("documentId", JStr documentId); ("pageCount", JNum pageCount);
                           ("pages", JArr pagesContent)])) ;;
         unlink (tempFilePath env documentId) ;;
         ret (mkPDFResult true "PDF processed successfully" (Some pageCount) (Some documentId))
     end)
    (fun msg => ret (mkPDFResult false ("Failed to process PDF: " ++ msg) None (Some documentId))).

(** [Promise.all(docs.map(async (doc, index) => ...))], in index order. *)
Fixpoint chunk_pages (pages : list nat) : M (list (list (string * json))) :=
  match pages with
  | [] => ret []
  | p :: ps =>
      chunks <- (match ext_chunks ext (ext_page_text ext p) with
                 | Some cs => ret cs
                 | None => throw "text splitter: cannot split"
                 end) ;;
      rest <- chunk_pages ps ;;
      ret ([("pageNumber", JNum p); ("content", JStr (ext_page_text ext p));
            ("chunks", JArr (map JStr chunks)); ("metadata", ext_page_meta ext p)] :: rest)
  end.

(** The non-blocking [(async () => { ... })()] (lines 150-244). *)
Definition background (documentId : nat) : M unit :=
  let id := nat_to_string documentId in
  try_catch
    (response <- fetch_pdf env ;;
     match response with
     | inr statusText => throw ("Failed to fetch PDF: " ++ statusText)
     | inl pdfBuffer =>
         writeFile env (tempFilePath env id) (Raw pdfBuffer) ;;
         pageCount <- loader_load env ;;
         pagesContent <- chunk_pages (seq 1 pageCount) ;;
         writeFile env (contentJsonPath env id)
           (JsonDoc (JObj [("documentId", JNum documentId); ("pageCount", JNum pageCount);
                           ("pages", JArr (map (fun page => JObj (page ++ [("image", JNull)])%list)
                                               pagesContent))])) ;;
         unlink (tempFilePath env id) ;;
         touch_updatedAt
     end)
    (fun _ => touch_updatedAt).

End Processing.

Definition saveDocument (env : Env) (ext : ExtEnv) (senv : ServerEnv) (dd : DocumentData)
    (s : Server) : Server * SaveResult * option (M unit) :=
  if negb (sv_find_ok senv) then (s, save_failed, None) else
  match findFirst_user s (dd_userId dd) with
  | None => (s, mkSave false "User not found" None, None)
  | Some uid =>
      match sv_insert senv with
      | None => (s, save_failed, None)
      | Some oid =>
          let s1 := insert_row s (new_row uid dd oid) in
          match truthy_id oid with
          | None => (s1, mkSave false "Failed to get document ID" None, None)
          | Some documentId =>
              (revalidatePath s1 "/chat-with-pdf",
               mkSave true "Document saved successfully. Processing started in background."
                      (Some documentId),
               Some (background env ext documentId))
          end
      end
  end.

End Legacy.

(** ** Client pages *)

(** The code units [String.prototype.trim] removes: WhiteSpace (tab,
    VT, FF, space, U+00A0, U+1680, U+2000-U+200A, U+202F, U+205F, U+3000,
    U+FEFF) and LineTerminator (LF, CR, U+2028, U+2029). *)
Definition is_ws (c : N) : bool :=
  ((9 <=? c) && (c <=? 13))%N || (c =? 32)%N || (c =? 160)%N || (c =? 5760)%N ||
  ((8192 <=? c) && (c <=? 8202))%N || (c =? 8232)%N || (c =? 8233)%N ||
  (c =? 8239)%N || (c =? 8287)%N || (c =? 12288)%N || (c =? 65279)%N.

Fixpoint trim_start (s : jsstring) : jsstring :=
  match s with
  | [] => []
  | c :: rest => if is_ws c then trim_start rest else s
  end.

Fixpoint trim_end (s : jsstring) : jsstring :=
  match s with
  | [] => []
  | c :: rest =>
      let rest' := trim_end rest in
      if is_ws c && negb (js_truthy rest') then [] else c :: rest'
  end.

Definition trim (s : jsstring) : jsstring := trim_end (trim_start s).

(** [[^/.]+$]: a non-empty tail without '/' (47) or '.' (46). *)
Fixpoint no_sep (s : jsstring) : bool :=
  match s with
  | [] => true
  | c :: rest => negb (c =? 47)%N && negb (c =? 46)%N && no_sep rest
  end.

(** [name.replace(/\.[^/.]+$/, "")]: the leftmost '.' whose tail matches
    [[^/.]+$] starts the match, which runs to the end of the name. *)
Fixpoint strip_ext (s : jsstring) : jsstring :=
  match s with
  | [] => []
  | c :: rest =>
      if (c =? 46)%N && js_truthy rest && no_sep rest
      then []
      else c :: strip_ext rest
  end.

(** [documentTitle.trim() || result.name.replace(...) || "Untitled Document"]. *)
Definition choose_title (documentTitle name : jsstring) : jsstring :=
  let t := trim documentTitle in
  if js_truthy t then t else
  let b := strip_ext name in
  if js_truthy b then b else js "Untitled Document".

(** What [handleUpload] leaves on screen: the router's destination, or a toast. *)
Inductive UiEffect : Type :=
| NoEffect
| Redirect (path : string)
| Toast (title description : string).

(** The object [onUploadComplete] returns (core.ts), as the client gets it. *)
Record UploadResult := mkUploadResult {
  up_url : string;
  up_name : jsstring;
  up_size : nat;
  up_key : string
}.

(** [handleUpload] of src/app/chat-with-pdf/page.tsx (lines 21-60); [save]
    is the server action. *)
Definition handleUpload (save : DocumentData -> Server -> Server * SaveResult)
    (user : option string) (documentTitle : jsstring) (result : option UploadResult)
    (s : Server) : Server * UiEffect :=
  match user, result with
  | Some userId, Some r =>
      let title := choose_title documentTitle (up_name r) in
      let '(s', response) :=
        save (mkDocumentData userId title (up_name r) (up_url r) (up_key r) (up_size r)) s in
      match sr_success response, truthy_id (sr_documentId response) with
      | true, Some id => (s', Redirect ("/chat-with-pdf/" ++ nat_to_string id))
      | _, _ => (s', Toast "Error" (if String.eqb (sr_message response) ""
                                   then "Failed to save document" else sr_message response))
      end
  | _, _ => (s, NoEffect)
  end.

Record ChatMessage := mkChatMessage { msg_content : jsstring; isUserMessage : bool }.

Record ChatState := mkChatState {
  chatMessages : list ChatMessage;
  message : jsstring;                 (* the input box *)
  posted : list jsstring;             (* bodies POSTed to /api/chat/<documentId> *)
  toasts : list string                (* descriptions of the error toasts *)
}.

(** [handleSendMessage] of src/app/chat-with-pdf/[documentId]/page.tsx
    (lines 48-83); [reply] is the POST's [response.data.message], [None]
    when the request throws. *)
Definition handleSendMessage (reply : option jsstring) (st : ChatState) : ChatState :=
  if negb (js_truthy (trim (message st))) then st else
  let msgs := (chatMessages st ++ [mkChatMessage (message st) true])%list in
  let posted' := (posted st ++ [trim (message st)])%list in
  match reply with
  | Some m => mkChatState (msgs ++ [mkChatMessage m false])%list [] posted' (toasts st)
  | None => mkChatState msgs [] posted' (toasts st ++ ["Failed to send message"])%list
  end.

(** *** Helpers of the proofs below *)

Fixpoint dec_value (s : string) (acc : nat) : nat :=
  match s with
  | EmptyString => acc
  | String c rest => dec_value rest (acc * 10 + (nat_of_ascii c - 48))
  end.

(** A computation that leaves the Document Record, its log and the clock alone. *)
Definition db_frame {A} (m : M A) : Prop :=
  forall w, doc (fst (m w)) = doc w /\ dbLog (fst (m w)) = dbLog w /\ clock (fst (m w)) = clock w.

(** Page texts, one chunk per page, one image per requested page. *)
Definition sample_ext : ExtEnv :=
  mkExtEnv (fun p => "text of page " ++ nat_to_string p) (fun _ => JObj []) (fun s => Some [s])
           (fun o => match o with
                     | Some l => Some (map (fun p => "png " ++ nat_to_string p) l)
                     | None => Some ["png 1"; "png 2"]
                     end).

Definition sample_server : Server := mkServer [("user_2abc", 4)] [] [] [].
Definition sample_data : DocumentData :=
  mkDocumentData "user_2abc" (js "Notes") (js "notes.pdf") "https://utfs.io/f/abc" "abc" 1024.

(** ** General lemmas *)

Lemma string_app_assoc (a b c : string) : ((a ++ b) ++ c)%string = (a ++ (b ++ c))%string.
Proof. induction a as [|x a IH]; simpl; [reflexivity | now rewrite IH]. Qed.

Lemma string_app_cancel_l (a b c : string) : (a ++ b)%string = (a ++ c)%string -> b = c.
Proof. induction a as [|x a IH]; simpl; [auto | intros H; injection H; auto]. Qed.

Lemma fs_read_put_same path c fs : fs_read path (fs_put path c fs) = Some c.
Proof. unfold fs_read, fs_put; simpl; now rewrite String.eqb_refl. Qed.

Lemma fs_read_remove_other path q fs :
  path <> q -> fs_read q (fs_remove path fs) = fs_read q fs.
Proof.
  intros Hne; unfold fs_read, fs_remove.
  induction fs as [|[x c] fs IH]; simpl; [reflexivity|].
  destruct (String.eqb_spec x path) as [->|Hx]; simpl.
  - apply String.eqb_neq in Hne; now rewrite Hne.
  - destruct (String.eqb x q); simpl; auto.
Qed.

Lemma fs_read_remove_same path fs : fs_read path (fs_remove path fs) = None.
Proof.
  unfold fs_read, fs_remove.
  induction fs as [|[x c] fs IH]; simpl; [reflexivity|].
  destruct (String.eqb_spec x path) as [->|Hx]; simpl; auto.
  apply String.eqb_neq in Hx; now rewrite Hx.
Qed.

Lemma fs_read_put_other path q c fs :
  path <> q -> fs_read q (fs_put path c fs) = fs_read q fs.
Proof.
  intros Hne; unfold fs_put.
  transitivity (fs_read q (fs_remove path fs)); [|now apply fs_read_remove_other].
  unfold fs_read; simpl. apply String.eqb_neq in Hne; now rewrite Hne.
Qed.

Lemma fs_exists_read path fs :
  fs_exists path fs = match fs_read path fs with Some _ => true | None => false end.
Proof.
  unfold fs_exists, fs_read.
  induction fs as [|[x c] fs IH]; simpl; [reflexivity|].
  destruct (String.eqb x path); simpl; auto.
Qed.

Lemma fs_exists_put_same path c fs : fs_exists path (fs_put path c fs) = true.
Proof. now rewrite fs_exists_read, fs_read_put_same. Qed.

(** One page task, written out case by case. *)
Lemma processPage_eq env id N p w :
  processPage env id N p w =
  let path := singlePagePdfPath env id p in
  if env_split_ok env p then
    if env_write_ok env path then
      let w1 := set_files w (fs_put path (Raw ("page " ++ nat_to_string p)) (files w))
                          (fsWrites w ++ [path])%list in
      if env_sharp_ok env p then
        let w2 := set_uploads w1 (uploads w ++ [p])%list in
        if env_upload_ok env p (count_occ Nat.eq_dec (uploads w) p) then
          let w3 := set_files w2 (fs_remove path (files w2)) (fsWrites w2) in
          (set_doc w3 (apply_update (doc w) (page_update (clock w) N p))
                   (dbLog w ++ [page_update (clock w) N p])%list,
           Ok (p, env_url env p))
        else (w2, Err "storage/unknown")
      else (w1, Err "sharp: cannot render page")
    else (w, Err ("EIO: i/o error, write '" ++ path ++ "'"))
  else (w, Err "pdf-lib: cannot copy page").
Proof.
  unfold processPage, try_catch, bind, ret, throw, writeFile, uploadBytes,
    getDownloadURL, unlink, now, db_update.
  destruct (env_split_ok env p); [|reflexivity].
  destruct (env_write_ok env (singlePagePdfPath env id p)); [|reflexivity].
  destruct (env_sharp_ok env p); [|reflexivity].
  simpl. destruct (env_upload_ok env p (count_occ Nat.eq_dec (uploads w) p)); [|reflexivity].
  simpl. unfold fs_exists, fs_put; simpl; rewrite String.eqb_refl; reflexivity.
Qed.

Lemma run_pages_cons env id N p rest w :
  run_pages env id N (p :: rest) w =
  match processPage env id N p w with
  | (w1, r) => match run_pages env id N rest w1 with
               | (w', Ok rs) => (w', Ok ((p, r) :: rs))
               | (w', Err e) => (w', Err e)
               end
  end.
Proof.
  cbn [run_pages]; unfold bind, settle, ret.
  destruct (processPage env id N p w) as [w1 r].
  destruct (run_pages env id N rest w1) as [w' [rs|e]]; reflexivity.
Qed.

(** What running the page tasks in a completion order does. *)
Lemma run_pages_spec env id N order :
  NoDup order ->
  forall w, (forall p, In p order -> ~ In p (uploads w)) ->
  match run_pages env id N order w with
  | (w', r) =>
      r = Ok (map (fun p => (p, page_outcome env id p)) order) /\
      dbLog w' = (dbLog w ++ map (page_update (clock w) N) (filter (page_ok env id) order))%list /\
      processingComplete (doc w') = processingComplete (doc w) /\
      processingError (doc w') = processingError (doc w) /\
      uploads w' = (uploads w ++ filter (page_pre_ok env id) order)%list /\
      jobProgress w' = jobProgress w /\
      clock w' = clock w /\
      (forall q, (forall p, In p order -> singlePagePdfPath env id p <> q) ->
                 fs_read q (files w') = fs_read q (files w)) /\
      fsWrites w' = (fsWrites w ++ map (singlePagePdfPath env id)
                       (filter (fun p => env_split_ok env p &&
                                         env_write_ok env (singlePagePdfPath env id p)) order))%list
  end.
Proof.
  induction order as [|p rest IH]; intros Hnd w Hup.
  - simpl. rewrite !app_nil_r. repeat split; auto.
  - inversion Hnd as [|? ? Hnotin Hnd']; subst.
    assert (Hc : count_occ Nat.eq_dec (uploads w) p = 0)
      by (apply count_occ_not_In; apply Hup; left; reflexivity).
    rewrite run_pages_cons, processPage_eq.
    unfold page_outcome, page_ok, page_pre_ok. rewrite Hc.
    destruct (env_split_ok env p) eqn:Hs;
    [destruct (env_write_ok env (singlePagePdfPath env id p)) eqn:Hw;
     [destruct (env_sharp_ok env p) eqn:Hr;
      [destruct (env_upload_ok env p 0) eqn:Hu|]|]|]; cbn beta iota zeta.
    all: match goal with
    | |- context [run_pages ?e ?i ?n ?rs0 ?w1] =>
        specialize (IH Hnd' w1);
        destruct (run_pages e i n rs0 w1) as [w' [rs|err]] eqn:E
    end.
    all: unfold page_outcome, page_ok, page_pre_ok in IH; simpl in IH |- *.
    all: destruct IH as (IHr & IHlog & IHc & IHe & IHu & IHj & IHt & IHf & IHw);
      [ intros q Hq Hin;
        first [ apply in_app_or in Hin; destruct Hin as [Hin|[<-|[]]];
                [exact (Hup q (or_intror Hq) Hin) | exact (Hnotin Hq)]
              | exact (Hup q (or_intror Hq) Hin) ] | ].
    all: try discriminate IHr.
    all: injection IHr as ->.
    all: repeat split; rewrite ?Hs, ?Hw, ?Hr, ?Hu; simpl.
    all: try reflexivity.
    all: try (first [rewrite IHlog | rewrite IHu | rewrite IHw | rewrite IHc | rewrite IHe | rewrite IHj | rewrite IHt];
              simpl; rewrite <- ?app_assoc; reflexivity).
    all: intros q Hq; rewrite IHf by (intros p' Hp'; apply Hq; right; exact Hp');
      assert (Hpq : singlePagePdfPath env id p <> q) by (apply Hq; left; reflexivity);
      rewrite ?fs_read_remove_other, ?fs_read_put_other by exact Hpq; reflexivity.
Qed.

(** ** Paths *)

Lemma tempFilePath_ne_page env id p : tempFilePath env id <> singlePagePdfPath env id p.
Proof.
  unfold tempFilePath, singlePagePdfPath, tempDir. rewrite !string_app_assoc.
  intros H. apply string_app_cancel_l in H. simpl in H.
  repeat (injection H as H). apply string_app_cancel_l in H. discriminate H.
Qed.

Lemma jsonFilePath_ne_temp env id : jsonFilePath env id <> tempFilePath env id.
Proof.
  unfold jsonFilePath, tempFilePath, tempDir, dataDir. rewrite !string_app_assoc.
  intros H. apply string_app_cancel_l in H. discriminate H.
Qed.

(** ** Aggregation *)

Lemma lookup_result_map f p l :
  lookup_result p (map (fun q => (q, f q)) l) = if existsb (Nat.eqb p) l then Some (f p) else None.
Proof.
  induction l as [|q l IH]; simpl; [reflexivity|].
  rewrite Nat.eqb_sym. destruct (Nat.eqb_spec p q) as [->|]; simpl; auto.
Qed.

Lemma successfulResults_outcomes env id order pageNumbers :
  (forall p, In p pageNumbers -> In p order) ->
  successfulResults pageNumbers (map (fun p => (p, page_outcome env id p)) order) =
  map (fun p => (p, env_url env p)) (filter (page_ok env id) pageNumbers).
Proof.
  intros Hin. induction pageNumbers as [|p ps IH]; simpl; [reflexivity|].
  rewrite lookup_result_map.
  assert (Hex : existsb (Nat.eqb p) order = true).
  { apply existsb_exists. exists p. split; [apply Hin; left; reflexivity | apply Nat.eqb_refl]. }
  rewrite Hex, IH by (intros q Hq; apply Hin; right; exact Hq).
  unfold page_outcome, page_ok, page_pre_ok.
  destruct (env_split_ok env p), (env_write_ok env (singlePagePdfPath env id p)),
    (env_sharp_ok env p), (env_upload_ok env p 0); reflexivity.
Qed.

Lemma sort_by_page_sorted l :
  StronglySorted (fun a b => fst a < fst b) l -> sort_by_page l = l.
Proof.
  induction l as [|x xs IH]; intros Hs; simpl; [reflexivity|].
  inversion Hs as [|? ? Hs' Hf]; subst. rewrite IH by exact Hs'.
  destruct xs as [|y ys]; simpl; [reflexivity|].
  inversion Hf as [|? ? Hxy _]; subst.
  destruct (Nat.leb_spec (fst y) (fst x)); [lia | reflexivity].
Qed.

Lemma seq_strongly_sorted a n : StronglySorted lt (seq a n).
Proof.
  revert a; induction n as [|n IH]; intros a; simpl; constructor; [apply IH|].
  apply Forall_forall. intros x Hx. apply in_seq in Hx. lia.
Qed.

Lemma filter_strongly_sorted {A} (R : A -> A -> Prop) (f : A -> bool) l :
  StronglySorted R l -> StronglySorted R (filter f l).
Proof.
  induction l as [|x l IH]; intros Hs; simpl; [constructor|].
  inversion Hs as [|? ? Hs' Hf]; subst.
  destruct (f x); [constructor; [apply IH, Hs'|]|apply IH, Hs'].
  apply Forall_forall. intros y Hy. apply filter_In in Hy.
  rewrite Forall_forall in Hf. apply Hf, Hy.
Qed.

Lemma map_pages_strongly_sorted (g : nat -> string) l :
  StronglySorted lt l -> StronglySorted (fun a b => fst a < fst b) (map (fun p => (p, g p)) l).
Proof.
  induction l as [|x l IH]; intros Hs; simpl; [constructor|].
  inversion Hs as [|? ? Hs' Hf]; subst. constructor; [apply IH, Hs'|].
  apply Forall_map. simpl. exact Hf.
Qed.


Lemma worker_success_spec env job order d fs t body N :
  let id := documentId job in
  env_fetch env = inl body ->
  env_write_ok env (tempFilePath env id) = true ->
  env_load env = inl N ->
  env_write_ok env (jsonFilePath env id) = true ->
  Permutation order (seq 1 N) ->
  match run_job env job order d fs t with
  | (w', r) =>
      r = Ok (mkResult true id N) /\
      doc w' = mkDoc (Some t) 100 true (processingError d) /\
      dbLog w' = (map (page_update t N) (filter (page_ok env id) order)
                  ++ [mkUpd (Some t) (Some 100) (Some true) None])%list /\
      artifact env id w' =
        Some (artifact_json id N (map (fun p => (p, env_url env p))
                                      (filter (page_ok env id) (seq 1 N)))) /\
      uploads w' = filter (page_pre_ok env id) order /\
      jobProgress w' = [10; 15; 95; 100] /\
      fs_read (tempFilePath env id) (files w') = None /\
      fsWrites w' = (tempFilePath env id
                     :: map (singlePagePdfPath env id)
                          (filter (fun p => env_split_ok env p &&
                                            env_write_ok env (singlePagePdfPath env id p)) order)
                     ++ [jsonFilePath env id])%list
  end.
Proof.
  intros id Hf Hwt Hl Hwj Hperm.
  assert (Hnd : NoDup order)
    by (apply (Permutation_NoDup (Permutation_sym Hperm)), seq_NoDup).
  unfold run_job, worker_processor, processor_body, processor_catch, try_catch, bind, fetch_pdf, ret, writeFile, updateProgress,
    loader_load, now, db_update, unlink, throw.
  fold id. rewrite Hf, Hwt, Hl, Hwj. unfold ret. cbn beta iota zeta.
  match goal with
  | |- context [run_pages env id N order ?w1] =>
      pose proof (run_pages_spec env id N order Hnd w1) as Hsp;
      destruct (run_pages env id N order w1) as [w2 r] eqn:E
  end.
  destruct Hsp as (Hr & Hlog & Hc & He & Hu & Hj & Ht & Hfs & Hw); [simpl; intros ? _ []|].
  subst r. simpl in *.
  assert (Htemp : fs_read (tempFilePath env id) (files w2) = Some (Raw body)).
  { rewrite Hfs by (intros p _; apply not_eq_sym; apply tempFilePath_ne_page).
    apply fs_read_put_same. }

  rewrite fs_exists_read, fs_read_put_other, Htemp by apply jsonFilePath_ne_temp.
  simpl.
  rewrite successfulResults_outcomes
    by (intros p Hp; apply (Permutation_in _ (Permutation_sym Hperm) Hp)).
  rewrite sort_by_page_sorted
    by (apply map_pages_strongly_sorted, filter_strongly_sorted, seq_strongly_sorted).
  repeat split.
  - destruct (doc w2); simpl in *. rewrite Ht, He. reflexivity.
  - rewrite Hlog, Ht. reflexivity.
  - unfold artifact. simpl.
    rewrite fs_read_remove_other, fs_read_put_same by (apply not_eq_sym; apply jsonFilePath_ne_temp).
    reflexivity.
  - exact Hu.
  - rewrite Hj. reflexivity.
  - apply fs_read_remove_same.
  - rewrite Hw. reflexivity.
Qed.

(** Page tasks never reject as a whole and never touch the completion
    or error columns. *)
Lemma run_pages_frame env id N order :
  forall w,
  match run_pages env id N order w with
  | (w', r) =>
      (exists rs, r = Ok rs) /\
      processingComplete (doc w') = processingComplete (doc w) /\
      processingError (doc w') = processingError (doc w) /\
      clock w' = clock w /\
      exists l, dbLog w' = (dbLog w ++ l)%list /\
                Forall (fun u => set_processingComplete u = None /\
                                 set_processingError u = None) l
  end.
Proof.
  induction order as [|p rest IH]; intros w.
  - simpl. repeat split; auto; [eexists; reflexivity|].
    exists []. rewrite app_nil_r. auto.
  - rewrite run_pages_cons, processPage_eq. cbv zeta.
    destruct (env_split_ok env p);
    [destruct (env_write_ok env (singlePagePdfPath env id p));
     [destruct (env_sharp_ok env p);
      [destruct (env_upload_ok env p (count_occ Nat.eq_dec (uploads w) p))|]|]|];
    cbn beta iota zeta;
    match goal with
    | |- context [run_pages ?e ?i ?n ?rs0 ?w1] =>
        specialize (IH w1); destruct (run_pages e i n rs0 w1) as [w' [rs|err]]
    end;
    simpl in IH |- *;
    destruct IH as ([rs' Hrs] & Hc & He & Ht & l & Hl & Hf); try discriminate Hrs;
    (split; [eexists; reflexivity|]); rewrite Hc, He, Ht; repeat split; auto;
    first [ exists (page_update (clock w) N p :: l); rewrite Hl, <- app_assoc; split;
            [reflexivity | constructor; [split; reflexivity | exact Hf]]
          | exists l; split; [exact Hl | exact Hf] ].
Qed.

Lemma run_job_error_frame env job order d fs t w' msg :
  run_job env job order d fs t = (w', Err msg) ->
  exists w_err,
    processor_body env job order (init_world d fs t) = (w_err, Err msg) /\
    w' = set_doc w_err (apply_update (doc w_err) (error_update (clock w_err) msg))
                 (dbLog w_err ++ [error_update (clock w_err) msg])%list.
Proof.
  unfold run_job, worker_processor, try_catch.
  destruct (processor_body env job order (init_world d fs t)) as [w1 [a|e]];
    [discriminate|].
  unfold processor_catch, bind, now, db_update, throw. simpl.
  intros H. injection H as <- <-. exists w1. split; reflexivity.
Qed.

(** Job-level failures before the page tasks: nothing is written to the
    Document Record by the body. *)
Lemma processor_body_fail_early env job order d fs t :
  let id := documentId job in
  (exists st, env_fetch env = inr st) \/
  (exists b, env_fetch env = inl b /\ env_write_ok env (tempFilePath env id) = false) \/
  (exists b e, env_fetch env = inl b /\ env_write_ok env (tempFilePath env id) = true /\
               env_load env = inr e) ->
  match processor_body env job order (init_world d fs t) with
  | (w, r) => (exists msg, r = Err msg) /\ dbLog w = [] /\ doc w = d /\ clock w = t
  end.
Proof.
  intros id [[st Hf]|[[b [Hf Hw]]|[b [e [Hf [Hw Hl]]]]]];
  unfold processor_body, bind, fetch_pdf, ret, writeFile, updateProgress,
    loader_load, throw; fold id; rewrite Hf; cbn beta iota zeta;
  try rewrite Hw; try rewrite Hl; cbn beta iota zeta;
  repeat split; eexists; reflexivity.
Qed.

(** A failed write of the JSON artifact: the page tasks have run. *)
Lemma processor_body_fail_json env job order d fs t b N :
  let id := documentId job in
  env_fetch env = inl b -> env_write_ok env (tempFilePath env id) = true ->
  env_load env = inl N -> env_write_ok env (jsonFilePath env id) = false ->
  match processor_body env job order (init_world d fs t) with
  | (w, r) =>
      (exists msg, r = Err msg) /\ clock w = t /\
      processingComplete (doc w) = processingComplete d /\
      processingError (doc w) = processingError d /\
      Forall (fun u => set_processingComplete u = None /\ set_processingError u = None) (dbLog w) /\
      (Permutation order (seq 1 N) ->
       dbLog w = map (page_update t N) (filter (page_ok env id) order))
  end.
Proof.
  intros id Hf Hw Hl Hj.
  unfold processor_body, bind, fetch_pdf, ret, writeFile, updateProgress,
    loader_load, throw; fold id; rewrite Hf, Hw, Hl; unfold ret; cbn beta iota zeta.
  match goal with
  | |- context [run_pages ?e ?i ?n ?o ?w1] =>
      pose proof (run_pages_frame e i n o w1) as Hfr;
      pose proof (fun Hnd => run_pages_spec e i n o Hnd w1) as Hsp;
      destruct (run_pages e i n o w1) as [w2 r] eqn:E
  end.
  destruct Hfr as ([rs ->] & Hc & He & Ht & l & Hlog & Hall).
  rewrite Hj. simpl in *. rewrite Hlog in *.
  repeat split; auto; [eexists; reflexivity|].
  intros Hperm.
  assert (Hnd : NoDup order)
    by (apply (Permutation_NoDup (Permutation_sym Hperm)), seq_NoDup).
  destruct (Hsp Hnd) as (_ & Hlog' & _ & _ & _ & _ & Ht' & _); [simpl; intros ? _ []|].
  simpl in Hlog', Ht'. rewrite ?Hlog in Hlog'. exact Hlog'.
Qed.

(** ** Progress values *)

Section Binary64_facts.
Local Open Scope Z_scope.

Lemma scale_pos : 0 < scale.
Proof. unfold scale. apply Z.pow_pos_nonneg; lia. Qed.

Lemma rne_div_bounds n d : 0 < d -> n / d <= rne_div n d <= n / d + 1.
Proof.
  intros Hd. unfold rne_div.
  destruct (Z.compare_spec (2 * (n mod d)) d); [destruct (Z.even (n / d))|..]; lia.
Qed.

Lemma rne_div_nonneg n d : 0 <= n -> 0 < d -> 0 <= rne_div n d.
Proof.
  intros Hn Hd. pose proof (rne_div_bounds n d Hd). pose proof (Z.div_pos n d Hn Hd). lia.
Qed.

Lemma rne_div_mono n1 n2 d : 0 < d -> n1 <= n2 -> rne_div n1 d <= rne_div n2 d.
Proof.
  intros Hd Hn.
  pose proof (Z.div_le_mono n1 n2 d Hd Hn) as Hq.
  destruct (Z.eq_dec (n1 / d) (n2 / d)) as [Heq|Hne].
  - pose proof (Z.div_mod n1 d) as E1. pose proof (Z.div_mod n2 d) as E2.
    pose proof (Z.mod_pos_bound n1 d Hd). pose proof (Z.mod_pos_bound n2 d Hd).
    assert (n1 mod d <= n2 mod d) by (rewrite Heq in E1; lia).
    unfold rne_div. rewrite Heq.
    destruct (Z.compare_spec (2 * (n1 mod d)) d), (Z.compare_spec (2 * (n2 mod d)) d);
      destruct (Z.even (n2 / d)); lia.
  - pose proof (rne_div_bounds n1 d Hd). pose proof (rne_div_bounds n2 d Hd). lia.
Qed.

Lemma rne_div_exact k d : 0 < d -> rne_div (k * d) d = k.
Proof.
  intros Hd. unfold rne_div.
  rewrite Z.div_mul, Z.mod_mul by lia. rewrite Z.mul_0_r.
  destruct (Z.compare_spec 0 d); lia.
Qed.

Lemma round_binary64_1 x :
  round_binary64 x 1 = rnd_at (Z.max 0 (Z.log2 x - 52)) x.
Proof. unfold round_binary64, rnd_at. rewrite Z.div_1_r, Z.mul_1_l. reflexivity. Qed.

Lemma rnd_at_mono e x y : 0 <= e -> x <= y -> rnd_at e x <= rnd_at e y.
Proof.
  intros He Hxy. unfold rnd_at.
  assert (0 < 2 ^ e) by (apply Z.pow_pos_nonneg; lia).
  apply Z.mul_le_mono_nonneg_r; [lia | apply rne_div_mono; lia].
Qed.

Lemma rnd_at_pow e j : 0 <= e <= j -> rnd_at e (2 ^ j) = 2 ^ j.
Proof.
  intros H. unfold rnd_at.
  replace (2 ^ j) with (2 ^ (j - e) * 2 ^ e) at 1
    by (rewrite <- Z.pow_add_r by lia; f_equal; lia).
  rewrite rne_div_exact by (apply Z.pow_pos_nonneg; lia).
  rewrite <- Z.pow_add_r by lia. f_equal. lia.
Qed.

Lemma rnd_at_nonneg e x : 0 <= e -> 0 <= x -> 0 <= rnd_at e x.
Proof.
  intros He Hx. unfold rnd_at.
  assert (0 < 2 ^ e) by (apply Z.pow_pos_nonneg; lia).
  apply Z.mul_nonneg_nonneg; [apply rne_div_nonneg|]; lia.
Qed.

Lemma round_binary64_nonneg n d : 0 <= n -> 0 < d -> 0 <= round_binary64 n d.
Proof.
  intros Hn Hd. unfold round_binary64.
  set (e := Z.max 0 (Z.log2 (n / d) - 52)).
  assert (0 < 2 ^ e) by (apply Z.pow_pos_nonneg; lia).
  apply Z.mul_nonneg_nonneg; [apply rne_div_nonneg; nia | lia].
Qed.

(** Rounding an integer-valued quantity to binary64 is monotone. *)
Lemma round_binary64_mono x y :
  0 <= x <= y -> round_binary64 x 1 <= round_binary64 y 1.
Proof.
  intros Hxy. rewrite !round_binary64_1.
  destruct (Z.eq_dec x 0) as [->|Hx0].
  - unfold rnd_at at 1. unfold rne_div. rewrite Z.div_0_l, Z.mod_0_l by (apply Z.pow_nonzero; lia).
    destruct (Z.compare_spec (2 * 0) (2 ^ Z.max 0 (Z.log2 0 - 52)));
      try (pose proof (Z.pow_pos_nonneg 2 (Z.max 0 (Z.log2 0 - 52))); lia).
    simpl. apply rnd_at_nonneg; lia.
  - assert (Hl : Z.log2 x <= Z.log2 y) by (apply Z.log2_le_mono; lia).
    destruct (Z.eq_dec (Z.max 0 (Z.log2 x - 52)) (Z.max 0 (Z.log2 y - 52))) as [He|He].
    + rewrite He. apply rnd_at_mono; lia.
    + pose proof (Z.log2_spec x ltac:(lia)) as [_ Hx].
      pose proof (Z.log2_spec y ltac:(lia)) as [Hy _].
      pose proof (Z.log2_nonneg x).
      transitivity (2 ^ Z.succ (Z.log2 x)).
      * rewrite <- (rnd_at_pow (Z.max 0 (Z.log2 x - 52)) (Z.succ (Z.log2 x))) by lia.
        apply rnd_at_mono; lia.
      * transitivity (2 ^ Z.log2 y).
        -- apply Z.pow_le_mono_r; lia.
        -- rewrite <- (rnd_at_pow (Z.max 0 (Z.log2 y - 52)) (Z.log2 y)) at 1 by lia.
           apply rnd_at_mono; lia.
Qed.


Lemma div_scale_const k : 0 <= k -> (k * scale + scale / 2) / scale = k.
Proof.
  intros Hk. pose proof scale_pos.
  rewrite Z.div_add_l by lia. rewrite (Z.div_small (scale / 2) scale); [lia|].
  split; [apply Z.div_pos; lia | apply Z.div_lt; lia].
Qed.

End Binary64_facts.

Lemma to_number_le a b : (0 <= a <= b)%Z -> number_le (to_number a) (to_number b).
Proof.
  intros H. unfold to_number.
  destruct (Z.leb_spec (2 ^ 1024 * scale) a), (Z.leb_spec (2 ^ 1024 * scale) b); nsimpl; lia.
Qed.

Lemma to_number_le_inf a : (0 <= a)%Z -> number_le (to_number a) PosInf.
Proof. intros H. unfold to_number. destruct (Z.leb_spec (2 ^ 1024 * scale) a); nsimpl; lia. Qed.

Lemma num_mul_nat_le a p1 p2 :
  (0 <= a)%Z -> p1 <= p2 -> number_le (num_mul_nat (Num a) p1) (num_mul_nat (Num a) p2).
Proof.
  intros Ha Hp. nsimpl. apply to_number_le. split.
  - apply round_binary64_nonneg; lia.
  - apply round_binary64_mono. split; [lia|]. apply Z.mul_le_mono_nonneg_l; lia.
Qed.

Lemma num_add_int_le k x y :
  (0 <= k)%Z -> number_le x y -> number_le (num_add_int k x) (num_add_int k y).
Proof.
  intros Hk Hxy. pose proof scale_pos.
  destruct x as [a| |], y as [b| |]; nsimpl; try tauto.
  - apply to_number_le. split; [apply round_binary64_nonneg; nia|].
    apply round_binary64_mono. nia.
  - apply to_number_le_inf, round_binary64_nonneg; nia.
Qed.

Lemma math_round_min_le k x y :
  (0 <= k)%Z -> number_le x y ->
  math_round (num_min_int k x) <= math_round (num_min_int k y).
Proof.
  intros Hk Hxy. pose proof scale_pos.
  assert (0 <= k * scale)%Z by nia.
  destruct x as [a| |], y as [b| |]; nsimpl; try tauto; try lia;
    apply Z2Nat.inj_le;
    try (apply Z.div_pos; [pose proof (Z.div_pos scale 2); lia | lia]);
    apply Z.div_le_mono; lia.
Qed.

Lemma math_round_min_le_const k x :
  (0 <= k)%Z -> math_round (num_min_int k x) <= Z.to_nat k.
Proof.
  intros Hk. pose proof scale_pos. pose proof (div_scale_const k Hk) as E.
  destruct x as [a| |]; nsimpl; [| rewrite E; lia | lia].
  assert (H1 : ((Z.min (k * scale) a + scale / 2) / scale
                <= (k * scale + scale / 2) / scale)%Z) by (apply Z.div_le_mono; lia).
  rewrite E in H1. lia.
Qed.

Lemma progress_value_of N p : progress_value N p = progress_of (num_div 80 N) p.
Proof. reflexivity. Qed.

Lemma num_div_cases N :
  num_div 80 N = PosInf \/ exists a, (0 <= a)%Z /\ num_div 80 N = Num a.
Proof.
  unfold num_div. destruct (Nat.eqb_spec N 0); [now left|].
  unfold to_number.
  destruct (Z.leb_spec (2 ^ 1024 * scale) (round_binary64 (80 * scale) (Z.of_nat N)));
    [now left|].
  right. exists (round_binary64 (80 * scale) (Z.of_nat N)). split; [|reflexivity].
  apply round_binary64_nonneg; [pose proof scale_pos; lia | lia].
Qed.

Lemma progress_of_inf p : progress_of PosInf p = if p =? 0 then 0 else 95.
Proof.
  unfold progress_of. destruct p; [reflexivity|]. nsimpl.
  rewrite (div_scale_const 95) by lia. reflexivity.
Qed.

Lemma progress_value_le_95 N p : progress_value N p <= 95.
Proof. apply (math_round_min_le_const 95). lia. Qed.

Lemma progress_value_mono N p1 p2 : p1 <= p2 -> progress_value N p1 <= progress_value N p2.
Proof.
  intros Hp. rewrite !progress_value_of.
  destruct (num_div_cases N) as [-> | (a & Ha & ->)].
  - rewrite !progress_of_inf.
    destruct (Nat.eqb_spec p1 0), (Nat.eqb_spec p2 0); lia.
  - apply math_round_min_le; [lia|]. apply num_add_int_le; [lia|].
    apply num_mul_nat_le; assumption.
Qed.


(** ** Runs, from the body to the processor *)

Lemma run_job_body_err env job order d fs t w msg :
  processor_body env job order (init_world d fs t) = (w, Err msg) ->
  run_job env job order d fs t =
  (set_doc w (apply_update (doc w) (error_update (clock w) msg))
           (dbLog w ++ [error_update (clock w) msg])%list, Err msg).
Proof.
  intros H. unfold run_job, worker_processor, try_catch. rewrite H. reflexivity.
Qed.

Lemma progress_writes_page_updates t N l :
  flat_map (fun u => match set_processingProgress u with Some n => [n] | None => [] end)
           (map (page_update t N) l) = map (progress_value N) l.
Proof. induction l as [|p l IH]; simpl; [reflexivity | now rewrite IH]. Qed.

(** The progress values a run writes to the Document Record. *)
Lemma progress_writes_run env job order d fs t N :
  let id := documentId job in
  env_load env = inl N -> Permutation order (seq 1 N) ->
  match run_job env job order d fs t with
  | (w', _) =>
      progress_writes w' =
      match env_fetch env with
      | inr _ => []
      | inl _ =>
          if env_write_ok env (tempFilePath env id)
          then (map (progress_value N) (filter (page_ok env id) order)
                ++ (if env_write_ok env (jsonFilePath env id) then [100] else []))%list
          else []
      end
  end.
Proof.
  intros id Hl Hperm.
  destruct (env_fetch env) as [b|st] eqn:Hf;
  [destruct (env_write_ok env (tempFilePath env id)) eqn:Hwt;
   [destruct (env_write_ok env (jsonFilePath env id)) eqn:Hwj|]|].
  - pose proof (worker_success_spec env job order d fs t b N Hf Hwt Hl Hwj Hperm) as Hs.
    destruct (run_job env job order d fs t) as [w' r].
    destruct Hs as (_ & _ & Hlog & _). unfold progress_writes. rewrite Hlog.
    rewrite flat_map_app, progress_writes_page_updates. reflexivity.
  - pose proof (processor_body_fail_json env job order d fs t b N Hf Hwt Hl Hwj) as Hs.
    destruct (processor_body env job order (init_world d fs t)) as [w r] eqn:E.
    destruct Hs as ([msg ->] & Ht & _ & _ & _ & Hlog).
    rewrite (run_job_body_err _ _ _ _ _ _ _ _ E).
    unfold progress_writes. simpl. rewrite (Hlog Hperm).
    rewrite flat_map_app, progress_writes_page_updates. simpl. reflexivity.
  - pose proof (processor_body_fail_early env job order d fs t
                  (or_intror (or_introl (ex_intro _ b (conj Hf Hwt))))) as Hs.
    destruct (processor_body env job order (init_world d fs t)) as [w r] eqn:E.
    destruct Hs as ([msg ->] & Hlog & _).
    rewrite (run_job_body_err _ _ _ _ _ _ _ _ E).
    unfold progress_writes. simpl. rewrite Hlog. reflexivity.
  - pose proof (processor_body_fail_early env job order d fs t
                  (or_introl (ex_intro _ st Hf))) as Hs.
    destruct (processor_body env job order (init_world d fs t)) as [w r] eqn:E.
    destruct Hs as ([msg ->] & Hlog & _).
    rewrite (run_job_body_err _ _ _ _ _ _ _ _ E).
    unfold progress_writes. simpl. rewrite Hlog. reflexivity.
Qed.

(** ** Concrete runs *)

Example progress_value_2_pages : map (progress_value 2) [1; 2] = [55; 95].
Proof. vm_compute. reflexivity. Qed.

(** The double [15 + (80 / 1248) * 663] is [57.49999999999999], which
    [Math.round] takes to 57, where the exact [15 + 80 * 663 / 1248 = 57.5]
    would round to 58. *)
Example progress_value_1248_pages : progress_value 1248 663 = 57.
Proof. vm_compute. reflexivity. Qed.

Example run_two_pages_reversed :
  progress_writes (fst (run_job (sample_env 2 (fun _ => true) (fun _ _ => true))
                                sample_job [2; 1] fresh_doc [] 0)) = [95; 55; 100].
Proof. vm_compute. reflexivity. Qed.

Lemma strongly_sorted_snoc {A} (R : A -> A -> Prop) l y :
  StronglySorted R l -> (forall x, In x l -> R x y) -> StronglySorted R (l ++ [y]).
Proof.
  induction l as [|x l IH]; intros Hs Hy; simpl; [repeat constructor|].
  inversion Hs as [|? ? Hs' Hf]; subst. constructor.
  - apply IH; [exact Hs' | intros z Hz; apply Hy; right; exact Hz].
  - apply Forall_app; split; [exact Hf|]. constructor; [apply Hy; left; reflexivity | constructor].
Qed.

Lemma progress_values_sorted N l :
  StronglySorted lt l -> StronglySorted le (map (progress_value N) l).
Proof.
  induction l as [|p l IH]; intros Hs; simpl; [constructor|].
  inversion Hs as [|? ? Hs' Hf]; subst. constructor; [apply IH, Hs'|].
  apply Forall_map. eapply Forall_impl; [|exact Hf].
  intros q Hq. apply progress_value_mono. lia.
Qed.

(** ** Claims *)

(** C1 (counterexample): with two pages, sharp failing on page 2 and every
    other step succeeding, the persisted aggregate does not contain two
    entries: page 2 is dropped, not reported. *)
Lemma C1_counterexample :
  ~ (exists images,
       artifact env_page2_fails "7"
         (fst (run_job env_page2_fails sample_job [1; 2] fresh_doc [] 0))
       = Some (artifact_json "7" 2 images) /\ List.length images = 2).
Proof.
  intros [images [H Hlen]].
  destruct images as [|a [|b [|c l]]]; try discriminate Hlen.
  vm_compute in H. discriminate H.
Qed.

(** C1 (amended): when a job finalises (fetch, temp write, extraction with
    page count N and artifact write succeed, the page tasks completing in
    any order of 1..N), the artifact records pageCount = N and lists, sorted
    by pageNumber without duplicates, exactly the pages whose task resolved;
    pages whose render or upload failed have no entry. *)
Theorem C1_aggregate_lists_resolved_pages env job order d fs t body N :
  let id := documentId job in
  env_fetch env = inl body ->
  env_write_ok env (tempFilePath env id) = true ->
  env_load env = inl N ->
  env_write_ok env (jsonFilePath env id) = true ->
  Permutation order (seq 1 N) ->
  exists images,
    artifact env id (fst (run_job env job order d fs t)) = Some (artifact_json id N images) /\
    StronglySorted lt (map fst images) /\
    (forall p, In p (map fst images) <-> In p (seq 1 N) /\ page_ok env id p = true).
Proof.
  intros id Hf Hwt Hl Hwj Hperm.
  pose proof (worker_success_spec env job order d fs t body N Hf Hwt Hl Hwj Hperm) as Hs.
  destruct (run_job env job order d fs t) as [w' r].
  destruct Hs as (_ & _ & _ & Ha & _).
  eexists. split; [exact Ha|].
  rewrite map_map. simpl. rewrite map_id. split.
  - apply filter_strongly_sorted, seq_strongly_sorted.
  - intros p. apply filter_In.
Qed.

Lemma C1_witness :
  exists images,
    artifact env_page2_fails "7" (fst (run_job env_page2_fails sample_job [2; 1] fresh_doc [] 0))
      = Some (artifact_json "7" 2 images) /\
    StronglySorted lt (map fst images) /\
    (forall p, In p (map fst images) <-> In p (seq 1 2) /\ page_ok env_page2_fails "7" p = true).
Proof.
  apply (C1_aggregate_lists_resolved_pages env_page2_fails sample_job [2; 1] fresh_doc [] 0
           "%PDF-1.7" 2); try reflexivity.
  simpl. apply perm_swap.
Defined.

(** C2 (counterexample): two pages whose tasks both resolve, page 2
    completing first (an order [pLimit(2)] allows): the Document Record
    receives progress 95, then 55, then 100, which is not non-decreasing. *)
Lemma C2_counterexample :
  limit_order_ok 2 0 [2; 1] = true /\
  Permutation [2; 1] (seq 1 2) /\
  progress_writes (fst (run_job (env_all_ok 2) sample_job [2; 1] fresh_doc [] 0)) = [95; 55; 100] /\
  ~ Sorted le [95; 55; 100].
Proof.
  split; [reflexivity|]. split; [apply perm_swap|]. split; [vm_compute; reflexivity|].
  intros H. inversion H as [|? ? _ Hhd]; subst. inversion Hhd; lia.
Qed.

(** C2 (amended): the progress written for a page,
    [Math.round(Math.min(95, 15 + (80 / N) * p))] in double precision, is
    a non-decreasing function of its pageNumber p, so when the page tasks of a job with N
    pages complete in ascending pageNumber order, the progress values
    written to the Document Record are non-decreasing. *)
Theorem C2_progress_monotone_in_page_order env job d fs t N :
  env_load env = inl N ->
  Sorted le (progress_writes (fst (run_job env job (seq 1 N) d fs t))).
Proof.
  intros Hl.
  pose proof (progress_writes_run env job (seq 1 N) d fs t N Hl (Permutation_refl _)) as Hw.
  destruct (run_job env job (seq 1 N) d fs t) as [w' r]. simpl. rewrite Hw.
  apply StronglySorted_Sorted.
  assert (Hss : StronglySorted le
                  (map (progress_value N) (filter (page_ok env (documentId job)) (seq 1 N))))
    by apply progress_values_sorted, filter_strongly_sorted, seq_strongly_sorted.
  destruct (env_fetch env); [|constructor].
  destruct (env_write_ok env (tempFilePath env (documentId job))); [|constructor].
  destruct (env_write_ok env (jsonFilePath env (documentId job))).
  - apply strongly_sorted_snoc; [exact Hss|].
    intros x Hx. apply in_map_iff in Hx. destruct Hx as [p [<- _]].
    pose proof (progress_value_le_95 N p). lia.
  - rewrite app_nil_r. exact Hss.
Qed.

Lemma C2_witness :
  Sorted le (progress_writes (fst (run_job env_page2_fails sample_job (seq 1 2) fresh_doc [] 0))).
Proof. apply (C2_progress_monotone_in_page_order env_page2_fails sample_job fresh_doc [] 0 2). reflexivity. Defined.

(** C3 (counterexample): in the run of the C2 counterexample, the value
    written after the first page completes is 95, not the spec's
    [15 + round(80 * 1 / 2)] = 55. *)
Lemma C3_counterexample :
  limit_order_ok 2 0 [2; 1] = true /\
  claimed_progress 2 1 = 55 /\
  nth 0 (progress_writes (fst (run_job (env_all_ok 2) sample_job [2; 1] fresh_doc [] 0))) 0 = 95.
Proof. vm_compute. repeat split. Qed.

(** C3 (amended): once the source is fetched and saved, for a job with N
    pages the progress values written to the Document Record are, in
    completion order, [Math.round(Math.min(95, 15 + (80 / N) * p))]
    evaluated in double precision ([progress_value N p]) for each page p
    whose task resolves (p being its pageNumber, not the number of pages
    completed so far), a failed page writing nothing, followed by 100 when
    the artifact is written. *)
Theorem C3_progress_per_resolved_page env job order d fs t body N :
  let id := documentId job in
  env_fetch env = inl body ->
  env_write_ok env (tempFilePath env id) = true ->
  env_load env = inl N ->
  Permutation order (seq 1 N) ->
  progress_writes (fst (run_job env job order d fs t)) =
  (map (progress_value N) (filter (page_ok env id) order)
   ++ (if env_write_ok env (jsonFilePath env id) then [100] else []))%list.
Proof.
  intros id Hf Hwt Hl Hperm.
  pose proof (progress_writes_run env job order d fs t N Hl Hperm) as Hw.
  destruct (run_job env job order d fs t) as [w' r]. simpl. rewrite Hw, Hf.
  fold id. rewrite Hwt. reflexivity.
Qed.

Lemma C3_witness :
  progress_writes (fst (run_job env_page2_fails sample_job [2; 1] fresh_doc [] 0)) =
  (map (progress_value 2) (filter (page_ok env_page2_fails "7") [2; 1])
   ++ (if env_write_ok env_page2_fails (jsonFilePath env_page2_fails "7") then [100] else []))%list.
Proof.
  apply (C3_progress_per_resolved_page env_page2_fails sample_job [2; 1] fresh_doc [] 0
           "%PDF-1.7" 2); try reflexivity.
  simpl. apply perm_swap.
Defined.

(** C4 (counterexample): one page whose first uploadBytes call fails and
    whose later calls would succeed: the worker calls uploadBytes once for
    it, never retries, and the artifact lists no page. *)
Lemma C4_counterexample :
  env_upload_ok env_upload_flaky 1 1 = true /\
  uploads (fst (run_job env_upload_flaky sample_job [1] fresh_doc [] 0)) = [1] /\
  artifact env_upload_flaky "7" (fst (run_job env_upload_flaky sample_job [1] fresh_doc [] 0))
    = Some (artifact_json "7" 1 []).
Proof. vm_compute. repeat split. Qed.

(** C4 (amended): each page task calls uploadBytes at most once (no retry,
    no backoff): the pages uploaded are exactly the pages whose split,
    write and render succeed, each once; a page whose single upload call
    fails gets no entry in the artifact and every listed page's upload
    call succeeded; a failed upload rejects only that page's task, so the
    job still resolves with success. *)
Theorem C4_single_upload_attempt env job order d fs t body N :
  let id := documentId job in
  env_fetch env = inl body ->
  env_write_ok env (tempFilePath env id) = true ->
  env_load env = inl N ->
  env_write_ok env (jsonFilePath env id) = true ->
  Permutation order (seq 1 N) ->
  match run_job env job order d fs t with
  | (w', r) =>
      NoDup (uploads w') /\
      (forall p, In p (uploads w') <-> 1 <= p <= N /\ page_pre_ok env id p = true) /\
      r = Ok (mkResult true id N) /\
      exists images,
        artifact env id w' = Some (artifact_json id N images) /\
        (forall p, In p (map fst images) ->
                   page_pre_ok env id p = true /\ env_upload_ok env p 0 = true) /\
        (forall p, env_upload_ok env p 0 = false -> ~ In p (map fst images))
  end.
Proof.
  intros id Hf Hwt Hl Hwj Hperm.
  assert (Hnd : NoDup order)
    by (apply (Permutation_NoDup (Permutation_sym Hperm)), seq_NoDup).
  pose proof (worker_success_spec env job order d fs t body N Hf Hwt Hl Hwj Hperm) as Hs.
  destruct (run_job env job order d fs t) as [w' r].
  destruct Hs as (Hr & _ & _ & Ha & Hu & _).
  rewrite Hu. split; [apply NoDup_filter, Hnd|]. split.
  { intros p. rewrite filter_In.
    split; intros [Hin Hp]; split; try exact Hp.
    - apply (Permutation_in _ Hperm), in_seq in Hin. lia.
    - apply (Permutation_in _ (Permutation_sym Hperm)), in_seq. lia. }
  split; [exact Hr|].
  eexists; split; [exact Ha|].
  assert (Himg : forall p, In p (map fst (map (fun p => (p, env_url env p))
                  (filter (fun p => page_pre_ok env id p && env_upload_ok env p 0) (seq 1 N)))) ->
                 page_pre_ok env id p && env_upload_ok env p 0 = true).
  { intros p Hp. rewrite map_map in Hp. apply in_map_iff in Hp.
    destruct Hp as [q [Hq Hin]]. cbn in Hq. subst q.
    apply filter_In in Hin. exact (proj2 Hin). }
  split.
  - intros p Hp. apply andb_true_iff, Himg, Hp.
  - intros p Hup Hp. pose proof (Himg p Hp) as Hb.
    rewrite Hup, andb_false_r in Hb. discriminate.
Qed.

Lemma C4_witness :
  let env := env_upload_flaky in
  env_fetch env = inl "%PDF-1.7" /\
  env_write_ok env (tempFilePath env "7") = true /\
  env_load env = inl 1 /\
  env_write_ok env (jsonFilePath env "7") = true /\
  Permutation [1] (seq 1 1) /\
  match run_job env sample_job [1] fresh_doc [] 0 with
  | (w', r) =>
      NoDup (uploads w') /\
      (forall p, In p (uploads w') <-> 1 <= p <= 1 /\ page_pre_ok env "7" p = true) /\
      r = Ok (mkResult true "7" 1) /\
      exists images,
        artifact env "7" w' = Some (artifact_json "7" 1 images) /\
        (forall p, In p (map fst images) ->
                   page_pre_ok env "7" p = true /\ env_upload_ok env p 0 = true) /\
        (forall p, env_upload_ok env p 0 = false -> ~ In p (map fst images))
  end.
Proof.
  do 4 (split; [reflexivity|]). split; [apply Permutation_refl|].
  apply (C4_single_upload_attempt env_upload_flaky sample_job [1] fresh_doc [] 0
           "%PDF-1.7" 1); reflexivity.
Defined.

(** C5 (counterexample): the artifact of a one-page job has the keys
    documentId, pageCount and images, not documentId, pageCount, pages and
    processedDate. *)
Lemma C5_counterexample :
  exists j,
    artifact (env_all_ok 1) "7" (fst (run_job (env_all_ok 1) sample_job [1] fresh_doc [] 0)) = Some j /\
    json_keys j = ["documentId"; "pageCount"; "images"] /\
    json_keys j <> ["documentId"; "pageCount"; "pages"; "processedDate"].
Proof. eexists. split; [vm_compute; reflexivity|]. split; [reflexivity | discriminate]. Qed.

(** C5 (amended): for every job that finalises, the artifact is
    [{documentId, pageCount, images: [{pageNumber, firebaseUrl}]}], with
    one image object per resolved page in pageNumber order, and no page
    text, status or processedDate. *)
Theorem C5_artifact_shape env job order d fs t body N :
  let id := documentId job in
  env_fetch env = inl body ->
  env_write_ok env (tempFilePath env id) = true ->
  env_load env = inl N ->
  env_write_ok env (jsonFilePath env id) = true ->
  Permutation order (seq 1 N) ->
  artifact env id (fst (run_job env job order d fs t)) =
  Some (JObj [("documentId", JStr id);
              ("pageCount", JNum N);
              ("images", JArr (map (fun p => JObj [("pageNumber", JNum p);
                                                   ("firebaseUrl", JStr (env_url env p))])
                                   (filter (page_ok env id) (seq 1 N))))]).
Proof.
  intros id Hf Hwt Hl Hwj Hperm.
  pose proof (worker_success_spec env job order d fs t body N Hf Hwt Hl Hwj Hperm) as Hs.
  destruct (run_job env job order d fs t) as [w' r].
  destruct Hs as (_ & _ & _ & Ha & _). simpl. subst id. rewrite Ha.
  unfold artifact_json. rewrite map_map. reflexivity.
Qed.

Lemma C5_witness :
  artifact (env_all_ok 1) "7" (fst (run_job (env_all_ok 1) sample_job [1] fresh_doc [] 0)) =
  Some (JObj [("documentId", JStr "7");
              ("pageCount", JNum 1);
              ("images", JArr (map (fun p => JObj [("pageNumber", JNum p);
                                                   ("firebaseUrl", JStr (env_url (env_all_ok 1) p))])
                                   (filter (page_ok (env_all_ok 1) "7") (seq 1 1))))]).
Proof.
  apply (C5_artifact_shape (env_all_ok 1) sample_job [1] fresh_doc [] 0 "%PDF-1.7" 1);
    reflexivity.
Defined.

(** C6 (counterexample): when sharp throws on page 2 of a two-page job,
    the job resolves but the artifact has no entry at all for page 2 (no
    status=failed record with a null image URL). *)
Lemma C6_counterexample :
  snd (run_job env_page2_fails sample_job [1; 2] fresh_doc [] 0) = Ok (mkResult true "7" 2) /\
  exists images,
    artifact env_page2_fails "7" (fst (run_job env_page2_fails sample_job [1; 2] fresh_doc [] 0))
      = Some (artifact_json "7" 2 images) /\
    ~ In 2 (map fst images).
Proof.
  split; [vm_compute; reflexivity|].
  exists [(1, "https://firebasestorage.googleapis.com/page_1")].
  split; [vm_compute; reflexivity|]. simpl. intros [H|[]]. discriminate H.
Qed.

(** C6 (amended): when the non-page steps succeed, a page whose render or
    upload throws is left out of the artifact, every other page whose task
    resolves is listed, and the job still finalises: it resolves and the
    Document Record ends with complete = true and progress = 100. *)
Theorem C6_page_failure_isolated env job order d fs t body N :
  let id := documentId job in
  env_fetch env = inl body ->
  env_write_ok env (tempFilePath env id) = true ->
  env_load env = inl N ->
  env_write_ok env (jsonFilePath env id) = true ->
  Permutation order (seq 1 N) ->
  match run_job env job order d fs t with
  | (w', r) =>
      r = Ok (mkResult true id N) /\
      processingComplete (doc w') = true /\
      processingProgress (doc w') = 100 /\
      exists images,
        artifact env id w' = Some (artifact_json id N images) /\
        (forall p, In p (seq 1 N) -> page_ok env id p = false -> ~ In p (map fst images)) /\
        (forall p, In p (seq 1 N) -> page_ok env id p = true -> In (p, env_url env p) images)
  end.
Proof.
  intros id Hf Hwt Hl Hwj Hperm. subst id.
  pose proof (worker_success_spec env job order d fs t body N Hf Hwt Hl Hwj Hperm) as Hs.
  destruct (run_job env job order d fs t) as [w' r].
  destruct Hs as (Hr & Hd & _ & Ha & _).
  rewrite Hd. repeat split; auto.
  eexists. split; [exact Ha|]. split.
  - intros p _ Hko Hin. rewrite map_map in Hin. simpl in Hin. rewrite map_id in Hin.
    apply filter_In in Hin. destruct Hin as [_ Hok]. congruence.
  - intros p Hp Hok. apply in_map_iff. exists p. split; [reflexivity|].
    apply filter_In. auto.
Qed.

Lemma C6_witness :
  match run_job env_page2_fails sample_job [1; 2] fresh_doc [] 0 with
  | (w', r) =>
      r = Ok (mkResult true "7" 2) /\
      processingComplete (doc w') = true /\
      processingProgress (doc w') = 100 /\
      exists images,
        artifact env_page2_fails "7" w' = Some (artifact_json "7" 2 images) /\
        (forall p, In p (seq 1 2) -> page_ok env_page2_fails "7" p = false -> ~ In p (map fst images)) /\
        (forall p, In p (seq 1 2) -> page_ok env_page2_fails "7" p = true ->
                   In (p, env_url env_page2_fails p) images)
  end.
Proof.
  apply (C6_page_failure_isolated env_page2_fails sample_job [1; 2] fresh_doc [] 0 "%PDF-1.7" 2);
    try reflexivity.
Defined.

(** C7: on a job-level error (the fetch fails, a write of the temp PDF or
    of the artifact fails, or PDFLoader throws) the processor rejects with
    the error's message, the Document Record's processingError holds that
    message, and no write of the run sets processingComplete. *)
Theorem C7_job_error_recorded_and_rethrown env job order d fs t :
  job_level_failure env (documentId job) ->
  match run_job env job order d fs t with
  | (w', r) =>
      exists msg,
        r = Err msg /\
        processingError (doc w') = Some msg /\
        processingComplete (doc w') = processingComplete d /\
        Forall (fun u => set_processingComplete u = None) (dbLog w')
  end.
Proof.
  intros Hjl.
  destruct Hjl as [Hjl|[Hjl|[Hjl|[b [N (Hf & Hwt & Hl & Hwj)]]]]].
  1-3: pose proof (processor_body_fail_early env job order d fs t
                     ltac:(first [left; exact Hjl | right; left; exact Hjl |
                                  right; right; exact Hjl])) as Hs;
       destruct (processor_body env job order (init_world d fs t)) as [w r] eqn:E;
       destruct Hs as ([msg ->] & Hlog & Hd & Ht);
       rewrite (run_job_body_err _ _ _ _ _ _ _ _ E);
       exists msg; simpl; rewrite Hlog, Hd; repeat split; repeat constructor.
  pose proof (processor_body_fail_json env job order d fs t b N Hf Hwt Hl Hwj) as Hs.
  destruct (processor_body env job order (init_world d fs t)) as [w r] eqn:E.
  destruct Hs as ([msg ->] & _ & Hc & _ & Hall & _).
  rewrite (run_job_body_err _ _ _ _ _ _ _ _ E).
  exists msg. simpl. repeat split; auto.
  apply Forall_app. split; [|repeat constructor].
  eapply Forall_impl; [|exact Hall]. intros u [Hu _]. exact Hu.
Qed.

Lemma C7_witness :
  match run_job env_loader_crash sample_job [] fresh_doc [] 0 with
  | (w', r) =>
      exists msg,
        r = Err msg /\
        processingError (doc w') = Some msg /\
        processingComplete (doc w') = processingComplete fresh_doc /\
        Forall (fun u => set_processingComplete u = None) (dbLog w')
  end.
Proof.
  apply C7_job_error_recorded_and_rethrown.
  right. right. left. exists "%PDF-1.7", "Invalid PDF structure". repeat split.
Defined.

(** C8: a document whose extraction yields 0 pages (so no page task is
    scheduled) finalises when the fetch and the file writes succeed: the
    processor resolves with pageCount 0, the artifact records pageCount 0
    and no image, the Document Record ends with complete = true and
    progress = 100, and the run writes no error. *)
Theorem C8_zero_page_document_completes env job d fs t body :
  let id := documentId job in
  env_fetch env = inl body ->
  env_write_ok env (tempFilePath env id) = true ->
  env_load env = inl 0 ->
  env_write_ok env (jsonFilePath env id) = true ->
  match run_job env job [] d fs t with
  | (w', r) =>
      r = Ok (mkResult true id 0) /\
      processingComplete (doc w') = true /\
      processingProgress (doc w') = 100 /\
      processingError (doc w') = processingError d /\
      Forall (fun u => set_processingError u = None) (dbLog w') /\
      artifact env id w' = Some (artifact_json id 0 [])
  end.
Proof.
  intros id Hf Hwt Hl Hwj.
  pose proof (worker_success_spec env job [] d fs t body 0 Hf Hwt Hl Hwj (Permutation_refl _)) as Hs.
  destruct (run_job env job [] d fs t) as [w' r].
  destruct Hs as (Hr & Hd & Hlog & Ha & _).
  rewrite Hd, Hlog. repeat split; auto. repeat constructor.
Qed.

Lemma C8_witness :
  match run_job (env_all_ok 0) sample_job [] fresh_doc [] 0 with
  | (w', r) =>
      r = Ok (mkResult true "7" 0) /\
      processingComplete (doc w') = true /\
      processingProgress (doc w') = 100 /\
      processingError (doc w') = processingError fresh_doc /\
      Forall (fun u => set_processingError u = None) (dbLog w') /\
      artifact (env_all_ok 0) "7" w' = Some (artifact_json "7" 0 [])
  end.
Proof.
  apply (C8_zero_page_document_completes (env_all_ok 0) sample_job fresh_doc [] 0 "%PDF-1.7");
    reflexivity.
Defined.

(** C9 (counterexample): rendering page 1 of a one-page document writes
    the single-page PDF [temp/7_page_1.pdf] to disk. *)
Lemma C9_counterexample :
  singlePagePdfPath (env_all_ok 1) "7" 1 = "/app/temp/7_page_1.pdf" /\
  In "/app/temp/7_page_1.pdf"
     (fsWrites (fst (run_job (env_all_ok 1) sample_job [1] fresh_doc [] 0))).
Proof.
  split; [reflexivity|].
  assert (E : fsWrites (fst (run_job (env_all_ok 1) sample_job [1] fresh_doc [] 0)) =
              ["/app/temp/7.pdf"; "/app/temp/7_page_1.pdf"; "/app/data/7_firebase_images.json"])
    by (vm_compute; reflexivity).
  rewrite E. right; left; reflexivity.
Qed.

(** C9 (amended): a page task copies its page out of the whole buffer
    into a new single-page PDF, writes it to
    [temp/<documentId>_page_<p>.pdf] and renders that file; the file is
    removed after a successful upload and stays on disk when rendering or
    upload throws. *)
Theorem C9_render_through_single_page_file env id N p w :
  let path := singlePagePdfPath env id p in
  match processPage env id N p w with
  | (w', r) =>
      if env_split_ok env p && env_write_ok env path then
        fsWrites w' = (fsWrites w ++ [path])%list /\
        fs_read path (files w') =
          (if env_sharp_ok env p && env_upload_ok env p (count_occ Nat.eq_dec (uploads w) p)
           then None else Some (Raw ("page " ++ nat_to_string p)))
      else fsWrites w' = fsWrites w /\ files w' = files w
  end.
Proof.
  intros path. subst path. rewrite processPage_eq. cbv zeta.
  destruct (env_split_ok env p); [|simpl; split; reflexivity].
  destruct (env_write_ok env (singlePagePdfPath env id p)); [|simpl; split; reflexivity].
  destruct (env_sharp_ok env p);
    [destruct (env_upload_ok env p (count_occ Nat.eq_dec (uploads w) p))|];
    simpl; split; try reflexivity.
  - apply fs_read_remove_same.
  - apply fs_read_put_same.
  - apply fs_read_put_same.
Qed.

(** C10: when the processor rejects, its last write to the Document Record
    is the catch block's, which sets only updatedAt and processingError:
    processingProgress and processingComplete keep the values they had when
    the error was thrown, and the file system is left as it was (the temp
    PDF is not removed). *)
Theorem C10_error_path_frame env job order d fs t w' msg :
  run_job env job order d fs t = (w', Err msg) ->
  exists w_err,
    processor_body env job order (init_world d fs t) = (w_err, Err msg) /\
    dbLog w' = (dbLog w_err ++ [mkUpd (Some (clock w_err)) None None (Some msg)])%list /\
    processingProgress (doc w') = processingProgress (doc w_err) /\
    processingComplete (doc w') = processingComplete (doc w_err) /\
    processingError (doc w') = Some msg /\
    files w' = files w_err.
Proof.
  intros H. destruct (run_job_error_frame env job order d fs t w' msg H) as [w_err [Hb ->]].
  exists w_err. simpl. repeat split; auto.
Qed.

Lemma C10_witness :
  exists w_err,
    processor_body env_loader_crash sample_job [] (init_world fresh_doc [] 0)
      = (w_err, Err "Invalid PDF structure") /\
    dbLog (fst (run_job env_loader_crash sample_job [] fresh_doc [] 0))
      = (dbLog w_err ++ [mkUpd (Some (clock w_err)) None None (Some "Invalid PDF structure")])%list /\
    processingProgress (doc (fst (run_job env_loader_crash sample_job [] fresh_doc [] 0)))
      = processingProgress (doc w_err) /\
    processingComplete (doc (fst (run_job env_loader_crash sample_job [] fresh_doc [] 0)))
      = processingComplete (doc w_err) /\
    processingError (doc (fst (run_job env_loader_crash sample_job [] fresh_doc [] 0)))
      = Some "Invalid PDF structure" /\
    files (fst (run_job env_loader_crash sample_job [] fresh_doc [] 0)) = files w_err.
Proof.
  apply (C10_error_path_frame env_loader_crash sample_job [] fresh_doc [] 0).
  vm_compute. reflexivity.
Defined.

(** * Further properties of the code *)

Lemma digits_aux_value fuel : forall n acc a, n < fuel ->
  exists k, dec_value (digits_aux fuel n acc) a = dec_value acc (a * 10 ^ k + n).
Proof.
  induction fuel as [|f IH]; intros n acc a Hn; [lia|].
  cbn [digits_aux].
  assert (Hd : nat_of_ascii (ascii_of_nat (48 + n mod 10)) = 48 + n mod 10).
  { apply nat_ascii_embedding. pose proof (Nat.mod_upper_bound n 10). lia. }
  destruct (Nat.ltb_spec n 10) as [Hlt|Hge].
  - exists 1. cbn [dec_value]. rewrite Hd. f_equal.
    rewrite Nat.mod_small by exact Hlt. simpl. lia.
  - destruct (IH (n / 10) (String (ascii_of_nat (48 + n mod 10)) acc) a) as [k Hk].
    { assert (n / 10 < n) by (apply Nat.div_lt; lia). lia. }
    exists (S k). rewrite Hk. cbn [dec_value]. rewrite Hd. f_equal.
    pose proof (Nat.div_mod_eq n 10) as Hdm.
    rewrite Nat.pow_succ_r'.
    replace (48 + n mod 10 - 48) with (n mod 10) by lia.
    remember (a * 10 ^ k) as x. rewrite Nat.mul_assoc, (Nat.mul_comm a 10), <- Nat.mul_assoc, <- Heqx.
    lia.
Qed.

Lemma nat_to_string_value n : dec_value (nat_to_string n) 0 = n.
Proof.
  unfold nat_to_string. destruct (digits_aux_value (S n) n "" 0 (Nat.lt_succ_diag_r n)) as [k Hk].
  rewrite Hk. simpl. reflexivity.
Qed.

Lemma nat_to_string_inj p q : nat_to_string p = nat_to_string q -> p = q.
Proof.
  intros H. rewrite <- (nat_to_string_value p), <- (nat_to_string_value q), H. reflexivity.
Qed.

Lemma string_length_app a b : String.length (a ++ b) = String.length a + String.length b.
Proof. induction a as [|x a IH]; simpl; [reflexivity | now rewrite IH]. Qed.

Lemma string_app_cancel_r a b c : (a ++ c)%string = (b ++ c)%string -> a = b.
Proof.
  revert b. induction a as [|x a IH]; intros [|y b] H; simpl in H.
  - reflexivity.
  - apply (f_equal String.length) in H. simpl in H. rewrite string_length_app in H. lia.
  - apply (f_equal String.length) in H. simpl in H. rewrite string_length_app in H. lia.
  - injection H as -> H. f_equal. apply IH, H.
Qed.

Lemma singlePagePdfPath_inj env id p q :
  singlePagePdfPath env id p = singlePagePdfPath env id q -> p = q.
Proof.
  unfold singlePagePdfPath. intros H.
  apply string_app_cancel_l in H. simpl in H. injection H as H.
  apply string_app_cancel_l in H. simpl in H. repeat (injection H as H).
  apply string_app_cancel_r in H. apply nat_to_string_inj, H.
Qed.

(** Two page tasks of a job never write the same file. *)
Theorem page_files_distinct env id p q :
  p <> q -> singlePagePdfPath env id p <> singlePagePdfPath env id q.
Proof. intros Hpq H. apply Hpq. exact (singlePagePdfPath_inj env id p q H). Qed.

Lemma page_files_distinct_witness :
  1 <> 2 /\ singlePagePdfPath (env_all_ok 2) "7" 1 <> singlePagePdfPath (env_all_ok 2) "7" 2.
Proof. split; [discriminate | apply (page_files_distinct (env_all_ok 2) "7" 1 2); discriminate]. Defined.



(** A job that finalises reports 10, 15, 95, 100 to BullMQ, resolves with
    [{success: true, documentId, pageCount}] and removes the temp PDF. *)
Theorem job_success_reporting env job order d fs t body N :
  let id := documentId job in
  env_fetch env = inl body ->
  env_write_ok env (tempFilePath env id) = true ->
  env_load env = inl N ->
  env_write_ok env (jsonFilePath env id) = true ->
  Permutation order (seq 1 N) ->
  match run_job env job order d fs t with
  | (w', r) =>
      r = Ok (mkResult true id N) /\
      jobProgress w' = [10; 15; 95; 100] /\
      fs_read (tempFilePath env id) (files w') = None /\
      fs_read (jsonFilePath env id) (files w') <> None
  end.
Proof.
  intros id Hf Hwt Hl Hwj Hperm.
  pose proof (worker_success_spec env job order d fs t body N Hf Hwt Hl Hwj Hperm) as Hs.
  destruct (run_job env job order d fs t) as [w' r].
  destruct Hs as (Hr & _ & _ & Ha & _ & Hj & Ht & _).
  repeat split; auto.
  unfold artifact in Ha. subst id. intros H. rewrite H in Ha. discriminate Ha.
Qed.

Lemma job_success_reporting_witness :
  match run_job env_page2_fails sample_job [2; 1] fresh_doc [] 0 with
  | (w', r) =>
      r = Ok (mkResult true "7" 2) /\
      jobProgress w' = [10; 15; 95; 100] /\
      fs_read (tempFilePath env_page2_fails "7") (files w') = None /\
      fs_read (jsonFilePath env_page2_fails "7") (files w') <> None
  end.
Proof.
  apply (job_success_reporting env_page2_fails sample_job [2; 1] fresh_doc [] 0 "%PDF-1.7" 2);
    try reflexivity.
  apply perm_swap.
Defined.

(** A run that fails for a job-level reason: the error is recorded and
    the clock has not moved. *)
Lemma run_job_level_failure env job order d fs t :
  job_level_failure env (documentId job) ->
  exists w' msg,
    run_job env job order d fs t = (w', Err msg) /\
    processingError (doc w') = Some msg /\
    processingComplete (doc w') = processingComplete d /\
    clock w' = t.
Proof.
  intros Hjl.
  destruct Hjl as [Hjl|[Hjl|[Hjl|[b [N (Hf & Hwt & Hl & Hwj)]]]]].
  1-3: pose proof (processor_body_fail_early env job order d fs t
                     ltac:(first [left; exact Hjl | right; left; exact Hjl |
                                  right; right; exact Hjl])) as Hs;
       destruct (processor_body env job order (init_world d fs t)) as [w r] eqn:E;
       destruct Hs as ([msg ->] & Hlog & Hd & Ht);
       rewrite (run_job_body_err _ _ _ _ _ _ _ _ E);
       do 2 eexists; split; [reflexivity|]; simpl; rewrite Hd, Ht; repeat split.
  pose proof (processor_body_fail_json env job order d fs t b N Hf Hwt Hl Hwj) as Hs.
  destruct (processor_body env job order (init_world d fs t)) as [w r] eqn:E.
  destruct Hs as ([msg ->] & Ht & Hc & _ & _ & _).
  rewrite (run_job_body_err _ _ _ _ _ _ _ _ E).
  do 2 eexists. split; [reflexivity|]. simpl. repeat split; auto.
Qed.

(** When a run fails for a job-level reason and BullMQ's retry succeeds,
    the Document Record ends complete at 100 but still carries the first
    run's error: the success path never clears processingError. *)
Theorem retry_keeps_stale_error env1 order1 env2 order2 rest job d fs t body N :
  let id := documentId job in
  job_level_failure env1 id ->
  env_fetch env2 = inl body ->
  env_write_ok env2 (tempFilePath env2 id) = true ->
  env_load env2 = inl N ->
  env_write_ok env2 (jsonFilePath env2 id) = true ->
  Permutation order2 (seq 1 N) ->
  exists w1 w2 msg,
    process_with_retries ((env1, order1) :: (env2, order2) :: rest) job d fs t =
      [(w1, Err msg); (w2, Ok (mkResult true id N))] /\
    processingComplete (doc w2) = true /\
    processingProgress (doc w2) = 100 /\
    processingError (doc w2) = Some msg.
Proof.
  intros id Hjl Hf Hwt Hl Hwj Hperm.
  destruct (run_job_level_failure env1 job order1 d fs t Hjl) as (w1 & msg & E1 & He & _ & _).
  unfold process_with_retries, queue_attempts. cbn [attempts_from]. rewrite E1.
  cbn [attempts_from].
  pose proof (worker_success_spec env2 job order2 (doc w1) (files w1)
                (clock w1 + backoff_delay 1) body N Hf Hwt Hl Hwj Hperm) as Hs.
  destruct (run_job env2 job order2 (doc w1) (files w1) (clock w1 + backoff_delay 1)) as [w2 r2].
  destruct Hs as (Hr & Hd & _). subst r2.
  exists w1, w2, msg. rewrite Hd, He. repeat split.
Qed.

Lemma retry_keeps_stale_error_witness :
  exists w1 w2 msg,
    process_with_retries ((env_loader_crash, []) :: (env_all_ok 1, [1]) :: []) sample_job fresh_doc [] 0 =
      [(w1, Err msg); (w2, Ok (mkResult true "7" 1))] /\
    processingComplete (doc w2) = true /\
    processingProgress (doc w2) = 100 /\
    processingError (doc w2) = Some msg.
Proof.
  apply (retry_keeps_stale_error env_loader_crash [] (env_all_ok 1) [1] [] sample_job fresh_doc [] 0
           "%PDF-1.7" 1); try reflexivity.
  right. right. left. exists "%PDF-1.7", "Invalid PDF structure". repeat split.
Defined.

(** A job whose runs all fail for job-level reasons is run three times
    and no fourth time; the Document Record ends with the third run's
    error and its completion flag unchanged. *)
Theorem retries_exhausted env1 order1 env2 order2 env3 order3 rest job d fs t :
  let id := documentId job in
  job_level_failure env1 id -> job_level_failure env2 id -> job_level_failure env3 id ->
  exists w1 w2 w3 m1 m2 m3,
    process_with_retries ((env1, order1) :: (env2, order2) :: (env3, order3) :: rest) job d fs t =
      [(w1, Err m1); (w2, Err m2); (w3, Err m3)] /\
    processingError (doc w3) = Some m3 /\
    processingComplete (doc w3) = processingComplete d.
Proof.
  intros id H1 H2 H3.
  destruct (run_job_level_failure env1 job order1 d fs t H1) as (w1 & m1 & E1 & _ & Hc1 & _).
  destruct (run_job_level_failure env2 job order2 (doc w1) (files w1) (clock w1 + backoff_delay 1) H2)
    as (w2 & m2 & E2 & _ & Hc2 & _).
  destruct (run_job_level_failure env3 job order3 (doc w2) (files w2) (clock w2 + backoff_delay 2) H3)
    as (w3 & m3 & E3 & He3 & Hc3 & _).
  unfold process_with_retries, queue_attempts. cbn [attempts_from]. rewrite E1.
  cbn [attempts_from]. rewrite E2. cbn [attempts_from]. rewrite E3.
  exists w1, w2, w3, m1, m2, m3. split; [reflexivity|].
  rewrite He3, Hc3, Hc2, Hc1. split; reflexivity.
Qed.

Lemma retries_exhausted_witness :
  exists w1 w2 w3 m1 m2 m3,
    process_with_retries ((env_loader_crash, []) :: (env_loader_crash, []) :: (env_loader_crash, [])
                          :: (env_all_ok 0, []) :: []) sample_job fresh_doc [] 0 =
      [(w1, Err m1); (w2, Err m2); (w3, Err m3)] /\
    processingError (doc w3) = Some m3 /\
    processingComplete (doc w3) = processingComplete fresh_doc.
Proof.
  apply retries_exhausted;
    right; right; left; exists "%PDF-1.7", "Invalid PDF structure"; repeat split.
Defined.

Lemma queue_save_cases senv dd s :
  let '(s', r) := QueueBased.saveDocument senv dd s in
  (exists uid id,
     findFirst_user s (dd_userId dd) = Some uid /\ id <> 0 /\
     r = mkSave true "Document saved successfully. Processing queued in background." (Some id) /\
     documents s' = (documents s ++ [new_row uid dd (Some id)])%list /\
     queue s' = (queue s ++ [mkQueueJob "processPdf" id (dd_fileUrl dd) (dd_fileName dd)])%list /\
     revalidated s' = (revalidated s ++ ["/chat-with-pdf"])%list) \/
  (sr_success r = false /\ queue s' = queue s /\ sr_documentId r = None /\
   In (sr_message r) ["User not found"; "Failed to get document ID"; "Failed to save document"]).
Proof.
  unfold QueueBased.saveDocument.
  destruct (sv_find_ok senv); [|right; simpl; repeat split; right; right; left; reflexivity].
  simpl. destruct (findFirst_user s (dd_userId dd)) as [uid|];
    [|right; repeat split; left; reflexivity].
  destruct (sv_insert senv) as [oid|]; [|right; repeat split; right; right; left; reflexivity].
  destruct oid as [[|n]|]; simpl;
    try (right; repeat split; right; left; reflexivity).
  destruct (sv_queue_ok senv); [|right; repeat split; right; right; left; reflexivity].
  left. exists uid, (S n). repeat split; auto.
Qed.

(** The queue-based action reports success exactly when it inserted the
    row and queued one 'processPdf' job for it; otherwise it queues
    nothing and reports one of its three failure messages. *)
Theorem queue_save_outcome senv dd s :
  let '(s', r) := QueueBased.saveDocument senv dd s in
  (sr_success r = true ->
   exists uid id,
     findFirst_user s (dd_userId dd) = Some uid /\ sr_documentId r = Some id /\ id <> 0 /\
     documents s' = (documents s ++ [new_row uid dd (Some id)])%list /\
     queue s' = (queue s ++ [mkQueueJob "processPdf" id (dd_fileUrl dd) (dd_fileName dd)])%list /\
     revalidated s' = (revalidated s ++ ["/chat-with-pdf"])%list) /\
  (sr_success r = false ->
   queue s' = queue s /\ sr_documentId r = None /\
   In (sr_message r) ["User not found"; "Failed to get document ID"; "Failed to save document"]).
Proof.
  pose proof (queue_save_cases senv dd s) as H.
  destruct (QueueBased.saveDocument senv dd s) as [s' r].
  destruct H as [(uid & id & Hu & Hid & -> & Hd & Hq & Hr)|(Hf & Hq & Hid & Hm)].
  - split; [|intros Hc; discriminate Hc]. intros _. exists uid, id. repeat split; auto.
  - split; [congruence|]. auto.
Qed.

(** When the queue rejects the job, the action reports failure but the
    row it inserted stays in [documents], with no job to process it. *)
Theorem queue_failure_leaves_row senv dd s uid n :
  sv_find_ok senv = true ->
  findFirst_user s (dd_userId dd) = Some uid ->
  sv_insert senv = Some (Some (S n)) ->
  sv_queue_ok senv = false ->
  let '(s', r) := QueueBased.saveDocument senv dd s in
  r = mkSave false "Failed to save document" None /\
  documents s' = (documents s ++ [new_row uid dd (Some (S n))])%list /\
  queue s' = queue s.
Proof.
  intros Hf Hu Hi Hq. unfold QueueBased.saveDocument. rewrite Hf, Hu, Hi. simpl. rewrite Hq.
  repeat split.
Qed.

Lemma queue_failure_leaves_row_witness :
  let '(s', r) := QueueBased.saveDocument (mkServerEnv true (Some (Some 7)) false) sample_data sample_server in
  r = mkSave false "Failed to save document" None /\
  documents s' = (documents sample_server ++ [new_row 4 sample_data (Some 7)])%list /\
  queue s' = queue sample_server.
Proof. apply (queue_failure_leaves_row _ _ _ 4 6); reflexivity. Defined.

(** Composition with the upload page: an upload either takes the user to
    the page of the document whose job was queued, or shows an error toast
    with one of the action's failure messages and queues nothing. *)
Theorem upload_redirects_to_queued_document senv userId documentTitle up s :
  let '(s', eff) := handleUpload (QueueBased.saveDocument senv) (Some userId) documentTitle (Some up) s in
  (exists j, queue s' = (queue s ++ [j])%list /\ qj_fileUrl j = up_url up /\
             eff = Redirect ("/chat-with-pdf/" ++ nat_to_string (qj_documentId j))) \/
  (queue s' = queue s /\
   exists msg, eff = Toast "Error" msg /\
               In msg ["User not found"; "Failed to get document ID"; "Failed to save document"]).
Proof.
  unfold handleUpload.
  match goal with
  | |- context [QueueBased.saveDocument senv ?dd s] =>
      pose proof (queue_save_cases senv dd s) as H;
      destruct (QueueBased.saveDocument senv dd s) as [s' r]
  end.
  destruct H as [(uid & id & Hu & Hid & -> & Hd & Hq & Hr)|(Hf & Hq & Hid & Hm)].
  - destruct id as [|n]; [congruence|]. simpl. left.
    eexists. split; [exact Hq|]. split; reflexivity.
  - rewrite Hf. right. split; [exact Hq|].
    eexists. split; [reflexivity|].
    destruct (String.eqb_spec (sr_message r) "") as [He|_]; [|exact Hm].
    rewrite He in Hm. simpl in Hm. intuition discriminate.
Qed.

Lemma db_frame_bind {A B} (m : M A) (k : A -> M B) :
  db_frame m -> (forall a, db_frame (k a)) -> db_frame (bind m k).
Proof.
  intros Hm Hk w. unfold bind. specialize (Hm w).
  destruct (m w) as [w1 [a|e]] eqn:E; simpl in Hm |- *; [|exact Hm].
  destruct (Hk a w1) as (H1 & H2 & H3). destruct Hm as (G1 & G2 & G3).
  rewrite H1, H2, H3. auto.
Qed.

Lemma db_frame_ret {A} (a : A) : db_frame (ret a).
Proof. intros w. repeat split. Qed.

Lemma db_frame_throw {A} e : db_frame (@throw A e).
Proof. intros w. repeat split. Qed.

Lemma db_frame_writeFile env path c : db_frame (writeFile env path c).
Proof. intros w. unfold writeFile. destruct (env_write_ok env path); repeat split. Qed.

Lemma db_frame_unlink path : db_frame (unlink path).
Proof. intros w. unfold unlink. destruct (fs_exists path (files w)); repeat split. Qed.

Lemma db_frame_pdf2img_convert ext l : db_frame (pdf2img_convert ext l).
Proof. unfold pdf2img_convert. destruct (ext_convert ext l); [apply db_frame_ret | apply db_frame_throw]. Qed.

Lemma db_frame_loader_load env : db_frame (loader_load env).
Proof. unfold loader_load. destruct (env_load env); [apply db_frame_ret | apply db_frame_throw]. Qed.

Lemma batches_bounds N : N <= BatchUpload.batches N * 20 /\ BatchUpload.batches N * 20 < N + 20.
Proof.
  unfold BatchUpload.batches, BatchUpload.batchSize.
  pose proof (Nat.div_mod (N + 20 - 1) 20 ltac:(lia)) as Hdm.
  pose proof (Nat.mod_upper_bound (N + 20 - 1) 20 ltac:(lia)) as Hm.
  set (q := (N + 20 - 1) / 20) in *. set (r := (N + 20 - 1) mod 20) in *. lia.
Qed.

Lemma pageNumbers_cases N b k :
  b + S k = BatchUpload.batches N -> b * 20 <= N ->
  (BatchUpload.pageNumbers N b = seq (b * 20 + 1) 20 /\ S b * 20 <= N) \/
  (BatchUpload.pageNumbers N b = seq (b * 20 + 1) (N - b * 20) /\ k = 0).
Proof.
  intros Hk Hb. pose proof (batches_bounds N) as [B1 B2].
  unfold BatchUpload.pageNumbers, BatchUpload.startPage, BatchUpload.endPage, BatchUpload.batchSize.
  destruct (Nat.le_gt_cases ((b + 1) * 20) N) as [Hle|Hgt].
  - left. rewrite Nat.min_l by exact Hle. split; [f_equal; lia | lia].
  - right. rewrite Nat.min_r by lia. split; [f_equal; lia | lia].
Qed.

Lemma pageNumbers_last N b : b = BatchUpload.batches N -> b * 20 <= N -> N - b * 20 = 0.
Proof. intros -> Hb. pose proof (batches_bounds N). lia. Qed.

Lemma batches_flat_map N : forall k b,
  b + k = BatchUpload.batches N -> b * 20 <= N ->
  flat_map (BatchUpload.pageNumbers N) (seq b k) = seq (b * 20 + 1) (N - b * 20).
Proof.
  induction k as [|k IH]; intros b Hk Hb.
  - rewrite (pageNumbers_last N b) by (lia || exact Hb). reflexivity.
  - cbn [seq flat_map].
    destruct (pageNumbers_cases N b k Hk Hb) as [[-> Hb']|[-> ->]].
    + rewrite IH by lia. replace (S b * 20 + 1) with (b * 20 + 1 + 20) by lia.
      rewrite <- seq_app. f_equal; lia.
    + simpl. rewrite app_nil_r. reflexivity.
Qed.

(** The batches of the batch-upload action cover pages 1..N, in order,
    each page once, with at most 20 pages per batch. *)
Theorem batch_pages_partition N :
  flat_map (BatchUpload.pageNumbers N) (seq 0 (BatchUpload.batches N)) = seq 1 N /\
  Forall (fun b => List.length (BatchUpload.pageNumbers N b) <= BatchUpload.batchSize)
         (seq 0 (BatchUpload.batches N)).
Proof.
  split.
  - rewrite (batches_flat_map N (BatchUpload.batches N) 0) by lia. f_equal; lia.
  - apply Forall_forall. intros b _.
    unfold BatchUpload.pageNumbers, BatchUpload.startPage, BatchUpload.endPage, BatchUpload.batchSize.
    rewrite length_seq. pose proof (Nat.le_min_l ((b + 1) * 20) N). lia.
Qed.

Lemma set_uploads_twice w l1 l2 : set_uploads (set_uploads w l1) l2 = set_uploads w l2.
Proof. destruct w; reflexivity. Qed.

Lemma uploads_set_uploads w l : uploads (set_uploads w l) = l.
Proof. reflexivity. Qed.

Lemma upload_images_ok env s imgs w :
  (forall p k, env_upload_ok env p k = true) ->
  BatchUpload.upload_images env s imgs w =
  (set_uploads w (uploads w ++ seq s (List.length imgs))%list,
   Ok (map (fun p => (p, env_url env p)) (seq s (List.length imgs)))).
Proof.
  intros Hup. revert s w. induction imgs as [|img imgs IH]; intros s w.
  - simpl. rewrite app_nil_r. destruct w; reflexivity.
  - simpl. unfold bind, uploadBytes, getDownloadURL, ret. rewrite Hup. rewrite IH.
    simpl. rewrite set_uploads_twice, <- app_assoc. reflexivity.
Qed.

Lemma run_batches_ok env ext N :
  (forall l, exists imgs, ext_convert ext (Some l) = Some imgs /\ List.length imgs = List.length l) ->
  (forall p k, env_upload_ok env p k = true) ->
  forall k b w, b + k = BatchUpload.batches N -> b * 20 <= N ->
  BatchUpload.run_batches env ext N k b w =
  (set_uploads w (uploads w ++ seq (b * 20 + 1) (N - b * 20))%list,
   Ok (map (fun p => (p, env_url env p)) (seq (b * 20 + 1) (N - b * 20)))).
Proof.
  intros Hconv Hup. induction k as [|k IH]; intros b w Hk Hb.
  - rewrite (pageNumbers_last N b) by (lia || exact Hb). simpl. rewrite app_nil_r. destruct w; reflexivity.
  - cbn [BatchUpload.run_batches]. unfold bind, pdf2img_convert.
    destruct (Hconv (BatchUpload.pageNumbers N b)) as (imgs & Hc & Hlen). rewrite Hc.
    unfold ret at 1. rewrite upload_images_ok by exact Hup. rewrite Hlen.
    unfold BatchUpload.startPage, BatchUpload.batchSize.
    destruct (pageNumbers_cases N b k Hk Hb) as [[Hp Hb']|[Hp ->]]; rewrite Hp, length_seq.
    + rewrite IH by lia. cbv beta iota. unfold ret. rewrite uploads_set_uploads.
      rewrite set_uploads_twice, <- app_assoc, <- map_app.
      replace (S b * 20 + 1) with (b * 20 + 1 + 20) by lia.
      rewrite <- seq_app. replace (20 + (N - S b * 20)) with (N - b * 20) by lia. reflexivity.
    + cbn [BatchUpload.run_batches]. unfold ret. cbv beta iota.
      rewrite ?set_uploads_twice, !app_nil_r. reflexivity.
Qed.

(** When every collaborator succeeds and pdf-img-convert returns one
    image per requested page, the batch-upload background task uploads
    pages 1..N once each, in order, lists them all in
    [data/<id>_firebase_images.json], removes the temp PDF and only
    updates updatedAt. *)
Theorem batch_background_success env ext n d fs t body N :
  let id := nat_to_string n in
  env_fetch env = inl body ->
  (forall path, env_write_ok env path = true) ->
  env_load env = inl N ->
  (forall l, exists imgs, ext_convert ext (Some l) = Some imgs /\ List.length imgs = List.length l) ->
  (forall p k, env_upload_ok env p k = true) ->
  match BatchUpload.background env ext n (init_world d fs t) with
  | (w', r) =>
      r = Ok tt /\
      uploads w' = seq 1 N /\
      fs_read (jsonFilePath env id) (files w') =
        Some (JsonDoc (JObj [("documentId", JNum n); ("pageCount", JNum N);
                             ("images", JArr (map image_json (map (fun p => (p, env_url env p)) (seq 1 N))))])) /\
      fs_read (tempFilePath env id) (files w') = None /\
      doc w' = apply_update d (mkUpd (Some t) None None None)
  end.
Proof.
  intros id Hf Hw Hl Hconv Hup.
  unfold BatchUpload.background, try_catch, bind, fetch_pdf, ret, writeFile, loader_load.
  fold id. rewrite Hf, !Hw, Hl. unfold ret. cbn beta iota zeta.
  rewrite (run_batches_ok env ext N Hconv Hup (BatchUpload.batches N) 0) by lia.
  simpl. unfold unlink. simpl.
  rewrite fs_exists_read, fs_read_put_other by apply jsonFilePath_ne_temp.
  rewrite fs_read_put_same. simpl.
  unfold touch_updatedAt, bind, now, db_update. simpl.
  repeat split; rewrite ?Nat.sub_0_r; try reflexivity.
  - rewrite fs_read_remove_other by (apply not_eq_sym; apply jsonFilePath_ne_temp).
    apply fs_read_put_same.
  - apply fs_read_remove_same.
Qed.

Lemma batch_background_success_witness :
  match BatchUpload.background (env_all_ok 2) sample_ext 7 (init_world fresh_doc [] 0) with
  | (w', r) =>
      r = Ok tt /\
      uploads w' = seq 1 2 /\
      fs_read (jsonFilePath (env_all_ok 2) (nat_to_string 7)) (files w') =
        Some (JsonDoc (JObj [("documentId", JNum 7); ("pageCount", JNum 2);
                             ("images", JArr (map image_json (map (fun p => (p, env_url (env_all_ok 2) p)) (seq 1 2))))])) /\
      fs_read (tempFilePath (env_all_ok 2) (nat_to_string 7)) (files w') = None /\
      doc w' = apply_update fresh_doc (mkUpd (Some 0) None None None)
  end.
Proof.
  apply (batch_background_success (env_all_ok 2) sample_ext 7 fresh_doc [] 0 "%PDF-1.7" 2);
    try reflexivity;
    try (intros l; eexists; split; [reflexivity | apply length_map]).
Defined.


Lemma contentJsonPath_ne_temp env id : contentJsonPath env id <> tempFilePath env id.
Proof.
  unfold contentJsonPath, tempFilePath, tempDir, dataDir. rewrite !string_app_assoc.
  intros H. apply string_app_cancel_l in H. discriminate H.
Qed.

(** [processPDF] never rejects: it resolves with its documentId, and
    either reports success or a message starting with
    "Failed to process PDF: ". *)
Theorem processPDF_never_rejects env ext fileUrl id w :
  match Legacy.processPDF env ext fileUrl id w with
  | (w', r) =>
      exists res, r = Ok res /\ Legacy.pr_documentId res = Some id /\
        ((Legacy.pr_success res = true /\ Legacy.pr_message res = "PDF processed successfully") \/
         (Legacy.pr_success res = false /\ Legacy.pr_pageCount res = None /\
          exists msg, Legacy.pr_message res = ("Failed to process PDF: " ++ msg)%string))
  end.
Proof.
  unfold Legacy.processPDF, try_catch.
  match goal with
  | |- context [match ?m w with _ => _ end] =>
      assert (Hb : (exists w1 N, m w = (w1, Ok (Legacy.mkPDFResult true "PDF processed successfully"
                                                       (Some N) (Some id)))) \/
                   exists w1 e, m w = (w1, Err e));
      [| destruct Hb as [(w1 & N & ->)|(w1 & e & ->)];
         [ eexists; split; [reflexivity|]; split; [reflexivity|]; left; split; reflexivity
         | eexists; split; [reflexivity|]; split; [reflexivity|]; right; repeat split;
           eexists; reflexivity ] ]
  end.
  unfold loader_load, bind, fetch_pdf, ret, throw, writeFile.
  destruct (env_fetch env) as [buf|st]; cbv beta iota; [|right; do 2 eexists; reflexivity].
  destruct (env_write_ok env (tempFilePath env id)); cbv beta iota; [|right; do 2 eexists; reflexivity].
  destruct (env_load env) as [N|e]; cbv beta iota; [|right; do 2 eexists; reflexivity].
  destruct (env_write_ok env (contentJsonPath env id)); cbv beta iota;
    [|right; do 2 eexists; reflexivity].
  unfold unlink. destruct (fs_exists _ _); cbv beta iota;
    [left; do 2 eexists; reflexivity | right; do 2 eexists; reflexivity].
Qed.

(** When the fetch and the writes succeed, [processPDF] writes
    [data/<documentId>.json] with one entry per page numbered 1..N,
    removes the temp PDF, resolves with the page count, and does not touch
    the Document Record. *)
Theorem processPDF_success env ext fileUrl id d fs t body N :
  env_fetch env = inl body ->
  (forall path, env_write_ok env path = true) ->
  env_load env = inl N ->
  match Legacy.processPDF env ext fileUrl id (init_world d fs t) with
  | (w', r) =>
      r = Ok (Legacy.mkPDFResult true "PDF processed successfully" (Some N) (Some id)) /\
      fs_read (contentJsonPath env id) (files w') =
        Some (JsonDoc (JObj [("documentId", JStr id); ("pageCount", JNum N);
                             ("pages", JArr (map (fun p => JObj [("pageNumber", JNum p);
                                                                ("content", JStr (ext_page_text ext p));
                                                                ("metadata", ext_page_meta ext p)])
                                                 (seq 1 N)))])) /\
      fs_read (tempFilePath env id) (files w') = None /\
      doc w' = d /\ dbLog w' = []
  end.
Proof.
  intros Hf Hw Hl.
  unfold Legacy.processPDF, try_catch, loader_load, bind, fetch_pdf, ret, writeFile.
  rewrite Hf, !Hw, Hl. cbv beta iota zeta. unfold ret.
  unfold unlink. simpl.
  rewrite fs_exists_read, fs_read_put_other, fs_read_put_same by apply contentJsonPath_ne_temp.
  simpl. repeat split.
  - rewrite fs_read_remove_other by (apply not_eq_sym; apply contentJsonPath_ne_temp).
    apply fs_read_put_same.
  - apply fs_read_remove_same.
Qed.

Lemma processPDF_success_witness :
  match Legacy.processPDF (env_all_ok 2) sample_ext "https://utfs.io/f/7.pdf" "7" (init_world fresh_doc [] 0) with
  | (w', r) =>
      r = Ok (Legacy.mkPDFResult true "PDF processed successfully" (Some 2) (Some "7")) /\
      fs_read (contentJsonPath (env_all_ok 2) "7") (files w') =
        Some (JsonDoc (JObj [("documentId", JStr "7"); ("pageCount", JNum 2);
                             ("pages", JArr (map (fun p => JObj [("pageNumber", JNum p);
                                                                ("content", JStr (ext_page_text sample_ext p));
                                                                ("metadata", ext_page_meta sample_ext p)])
                                                 (seq 1 2)))])) /\
      fs_read (tempFilePath (env_all_ok 2) "7") (files w') = None /\
      doc w' = fresh_doc /\ dbLog w' = []
  end.
Proof. apply (processPDF_success (env_all_ok 2) sample_ext _ _ fresh_doc [] 0 "%PDF-1.7" 2); reflexivity. Defined.

(** When PDFLoader throws after the download was saved, [processPDF]
    resolves with success = false and the loader's message, and the temp
    PDF stays on disk. *)
Theorem processPDF_loader_failure_keeps_temp env ext fileUrl id w body e :
  env_fetch env = inl body ->
  env_write_ok env (tempFilePath env id) = true ->
  env_load env = inr e ->
  match Legacy.processPDF env ext fileUrl id w with
  | (w', r) =>
      r = Ok (Legacy.mkPDFResult false ("Failed to process PDF: " ++ e) None (Some id)) /\
      fs_read (tempFilePath env id) (files w') = Some (Raw body)
  end.
Proof.
  intros Hf Hw Hl.
  unfold Legacy.processPDF, try_catch, loader_load, bind, fetch_pdf, ret, throw, writeFile.
  rewrite Hf, Hw, Hl. cbv beta iota. split; [reflexivity|]. apply fs_read_put_same.
Qed.

Lemma processPDF_loader_failure_keeps_temp_witness :
  match Legacy.processPDF env_loader_crash sample_ext "https://utfs.io/f/7.pdf" "7" (init_world fresh_doc [] 0) with
  | (w', r) =>
      r = Ok (Legacy.mkPDFResult false ("Failed to process PDF: " ++ "Invalid PDF structure") None (Some "7")) /\
      fs_read (tempFilePath env_loader_crash "7") (files w') = Some (Raw "%PDF-1.7")
  end.
Proof. apply (processPDF_loader_failure_keeps_temp _ _ _ _ _ "%PDF-1.7" "Invalid PDF structure"); reflexivity. Defined.

(** The chunks of a page, when the splitter succeeds. *)
Lemma chunk_pages_ok ext ps w :
  (forall p, In p ps -> ext_chunks ext (ext_page_text ext p) <> None) ->
  Legacy.chunk_pages ext ps w =
  (w, Ok (map (fun p => [("pageNumber", JNum p); ("content", JStr (ext_page_text ext p));
                         ("chunks", JArr (map JStr (match ext_chunks ext (ext_page_text ext p) with
                                                    | Some cs => cs | None => [] end)));
                         ("metadata", ext_page_meta ext p)]) ps)).
Proof.
  intros Hc. induction ps as [|p ps IH]; [reflexivity|].
  simpl. unfold bind.
  destruct (ext_chunks ext (ext_page_text ext p)) as [cs|] eqn:E;
    [|exfalso; apply (Hc p (or_introl eq_refl)), E].
  unfold ret at 1. rewrite IH by (intros q Hq; apply Hc; right; exact Hq). reflexivity.
Qed.

(** When every step succeeds, the text-chunking background task writes
    [data/<documentId>.json] with one entry per page numbered 1..N, each
    carrying its text, its chunks and [image: null], and removes the temp
    PDF. *)
Theorem legacy_background_pages env ext n d fs t body N :
  let id := nat_to_string n in
  env_fetch env = inl body ->
  (forall path, env_write_ok env path = true) ->
  env_load env = inl N ->
  (forall p, ext_chunks ext (ext_page_text ext p) <> None) ->
  match Legacy.background env ext n (init_world d fs t) with
  | (w', r) =>
      r = Ok tt /\
      fs_read (contentJsonPath env id) (files w') =
        Some (JsonDoc (JObj [("documentId", JNum n); ("pageCount", JNum N);
          ("pages", JArr (map (fun p =>
             JObj [("pageNumber", JNum p); ("content", JStr (ext_page_text ext p));
                   ("chunks", JArr (map JStr (match ext_chunks ext (ext_page_text ext p) with
                                              | Some cs => cs | None => [] end)));
                   ("metadata", ext_page_meta ext p); ("image", JNull)]) (seq 1 N)))])) /\
      fs_read (tempFilePath env id) (files w') = None
  end.
Proof.
  intros id Hf Hw Hl Hc.
  unfold Legacy.background, try_catch, loader_load, bind, fetch_pdf, ret, writeFile.
  fold id. rewrite Hf, !Hw, Hl. cbv beta iota zeta. unfold ret.
  rewrite chunk_pages_ok by (intros p _; apply Hc).
  rewrite map_map.
  unfold unlink. simpl.
  rewrite fs_exists_read, fs_read_put_other, fs_read_put_same by apply contentJsonPath_ne_temp.
  unfold touch_updatedAt, bind, now, db_update. simpl. repeat split.
  - rewrite fs_read_remove_other by (apply not_eq_sym; apply contentJsonPath_ne_temp).
    apply fs_read_put_same.
  - apply fs_read_remove_same.
Qed.

Lemma legacy_background_pages_witness :
  match Legacy.background (env_all_ok 2) sample_ext 7 (init_world fresh_doc [] 0) with
  | (w', r) =>
      r = Ok tt /\
      fs_read (contentJsonPath (env_all_ok 2) (nat_to_string 7)) (files w') =
        Some (JsonDoc (JObj [("documentId", JNum 7); ("pageCount", JNum 2);
          ("pages", JArr (map (fun p =>
             JObj [("pageNumber", JNum p); ("content", JStr (ext_page_text sample_ext p));
                   ("chunks", JArr (map JStr (match ext_chunks sample_ext (ext_page_text sample_ext p) with
                                              | Some cs => cs | None => [] end)));
                   ("metadata", ext_page_meta sample_ext p); ("image", JNull)]) (seq 1 2)))])) /\
      fs_read (tempFilePath (env_all_ok 2) (nat_to_string 7)) (files w') = None
  end.
Proof.
  apply (legacy_background_pages (env_all_ok 2) sample_ext 7 fresh_doc [] 0 "%PDF-1.7" 2);
    try reflexivity.
  intros p. discriminate.
Defined.

Lemma db_frame_try_catch {A} (m : M A) (h : string -> M A) :
  db_frame m -> (forall e, db_frame (h e)) -> db_frame (try_catch m h).
Proof.
  intros Hm Hh w. unfold try_catch. specialize (Hm w).
  destruct (m w) as [w1 [a|e]]; simpl in *; [exact Hm|].
  destruct (Hh e w1) as (? & ? & ?). destruct Hm as (? & ? & ?). repeat split; congruence.
Qed.

Lemma db_frame_save_images env id k imgs : db_frame (InlineImages.save_images env id k imgs).
Proof.
  revert k. induction imgs as [|img imgs IH]; intros k; simpl; [apply db_frame_ret|].
  apply db_frame_bind; [apply db_frame_writeFile|intros []].
  apply db_frame_bind; [apply IH|intros refs]. apply db_frame_ret.
Qed.

Lemma db_frame_inline_processing env ext n : db_frame (InlineImages.processing env ext n).
Proof.
  unfold InlineImages.processing.
  apply db_frame_bind; [unfold fetch_pdf; apply db_frame_ret|intros [buf|st]; [|apply db_frame_throw]].
  apply db_frame_bind; [apply db_frame_writeFile|intros []].
  apply db_frame_bind; [apply db_frame_loader_load|intros N].
  apply db_frame_bind; [apply db_frame_pdf2img_convert|intros imgs].
  apply db_frame_bind; [apply db_frame_save_images|intros refs].
  apply db_frame_bind; [apply db_frame_writeFile|intros []]. apply db_frame_unlink.
Qed.

(** The inline-images action reports success whenever the row was
    inserted, whatever the processing does: the documentId is the insert's
    result (possibly undefined) and the row is appended. *)
Theorem inline_save_reports_success env ext senv dd s w uid oid :
  sv_find_ok senv = true ->
  findFirst_user s (dd_userId dd) = Some uid ->
  sv_insert senv = Some oid ->
  let '(s', _, r) := InlineImages.saveDocument env ext senv dd s w in
  r = mkSave true "Document saved successfully" oid /\
  documents s' = (documents s ++ [new_row uid dd oid])%list.
Proof.
  intros Hf Hu Hi. unfold InlineImages.saveDocument. rewrite Hf, Hu, Hi. simpl. split; reflexivity.
Qed.

Lemma inline_save_reports_success_witness :
  let '(s', _, r) := InlineImages.saveDocument env_loader_crash sample_ext
                       (mkServerEnv true (Some (Some 7)) true) sample_data sample_server
                       (init_world fresh_doc [] 0) in
  r = mkSave true "Document saved successfully" (Some 7) /\
  documents s' = (documents sample_server ++ [new_row 4 sample_data (Some 7)])%list.
Proof. apply (inline_save_reports_success _ _ _ _ _ _ 4 (Some 7)); reflexivity. Defined.

(** The inline-images action never writes to the Document Record: its
    processing touches only the file system, and its errors are
    swallowed. *)
Theorem inline_save_leaves_record env ext senv dd s w :
  let '(_, w', _) := InlineImages.saveDocument env ext senv dd s w in
  doc w' = doc w /\ dbLog w' = dbLog w /\ clock w' = clock w.
Proof.
  unfold InlineImages.saveDocument.
  destruct (negb (sv_find_ok senv)); [repeat split|].
  destruct (findFirst_user s (dd_userId dd)); [|repeat split].
  destruct (sv_insert senv) as [oid|]; [|repeat split].
  destruct (truthy_id oid) as [m|]; [|repeat split].
  apply db_frame_try_catch; [apply db_frame_inline_processing|intros e; apply db_frame_ret].
Qed.

(** Composition with the upload page: when the insert returns no usable
    id, the inline-images action still reports success, and the page
    shows an error toast whose text is the success message. *)
Theorem inline_missing_id_error_toast env ext senv w s user title r uid oid :
  sv_find_ok senv = true ->
  findFirst_user s user = Some uid ->
  sv_insert senv = Some oid ->
  truthy_id oid = None ->
  snd (handleUpload (fun dd s0 => let '(s', _, res) := InlineImages.saveDocument env ext senv dd s0 w
                                  in (s', res))
                    (Some user) title (Some r) s) =
  Toast "Error" "Document saved successfully".
Proof.
  intros Hf Hu Hi Ht. unfold handleUpload, InlineImages.saveDocument. simpl.
  rewrite Hf, Hu, Hi. simpl. rewrite Ht. reflexivity.
Qed.

Lemma inline_missing_id_error_toast_witness :
  snd (handleUpload (fun dd s0 => let '(s', _, res) :=
                                    InlineImages.saveDocument (env_all_ok 2) sample_ext
                                      (mkServerEnv true (Some None) true) dd s0 (init_world fresh_doc [] 0)
                                  in (s', res))
                    (Some "user_2abc") [] (Some (mkUploadResult "https://utfs.io/f/abc" (js "notes.pdf") 1024 "abc"))
                    sample_server) =
  Toast "Error" "Document saved successfully".
Proof. apply (inline_missing_id_error_toast _ _ _ _ _ _ _ _ 4 None); reflexivity. Defined.

Lemma find_seq_map (f : nat -> string) p k : forall s,
  find (fun r => fst r =? p) (map (fun q => (q, f q)) (seq s k)) =
  if (s <=? p) && (p <? s + k) then Some (p, f p) else None.
Proof.
  induction k as [|k IH]; intros s; simpl.
  - destruct (Nat.leb_spec s p), (Nat.ltb_spec p (s + 0)); simpl; auto; lia.
  - destruct (Nat.eqb_spec s p) as [->|Hne].
    + rewrite Nat.leb_refl. destruct (Nat.ltb_spec p (p + S k)); [reflexivity|lia].
    + rewrite IH.
      destruct (Nat.leb_spec (S s) p), (Nat.ltb_spec p (S s + k)),
               (Nat.leb_spec s p), (Nat.ltb_spec p (s + S k)); simpl; auto; lia.
Qed.

Lemma image_for_seq id k p :
  1 <= p ->
  InlineImages.image_for (map (fun q => (q, InlineImages.relativeImagePath id q)) (seq 1 k)) p =
  if p <=? k then JStr (InlineImages.relativeImagePath id p) else JNull.
Proof.
  intros Hp. unfold InlineImages.image_for. rewrite find_seq_map.
  destruct (Nat.leb_spec 1 p), (Nat.ltb_spec p (1 + k)), (Nat.leb_spec p k); simpl; auto; lia.
Qed.

Lemma save_images_ok env id imgs : forall k w,
  (forall path, env_write_ok env path = true) ->
  snd (InlineImages.save_images env id k imgs w) =
  Ok (map (fun q => (q, InlineImages.relativeImagePath id q)) (seq k (List.length imgs))).
Proof.
  induction imgs as [|img imgs IH]; intros k w Hw; [reflexivity|].
  simpl. unfold bind, writeFile. rewrite Hw.
  specialize (IH (S k) (set_files w (fs_put (InlineImages.imagePath env id k) (Raw img) (files w))
                                    (fsWrites w ++ [InlineImages.imagePath env id k])%list) Hw).
  destruct (InlineImages.save_images _ _ _ _ _) as [w2 r2]. simpl in IH. subst r2. reflexivity.
Qed.

Lemma imagePath_ne_temp env id i id' : InlineImages.imagePath env id i <> tempFilePath env id'.
Proof.
  unfold InlineImages.imagePath, tempFilePath, tempDir. rewrite !string_app_assoc.
  intros H. apply string_app_cancel_l in H. discriminate H.
Qed.

Lemma save_images_files env id imgs q : forall k w,
  (forall i, InlineImages.imagePath env id i <> q) ->
  fs_read q (files (fst (InlineImages.save_images env id k imgs w))) = fs_read q (files w).
Proof.
  induction imgs as [|img imgs IH]; intros k w Hq; [reflexivity|].
  simpl. unfold bind, writeFile.
  destruct (env_write_ok env (InlineImages.imagePath env id k)); [|reflexivity].
  match goal with
  | |- context [InlineImages.save_images env id (S k) imgs ?w1] =>
      pose proof (IH (S k) w1 Hq) as H1; destruct (InlineImages.save_images env id (S k) imgs w1) as [w2 [refs|e]]
  end; simpl in *; rewrite H1; apply fs_read_put_other; apply Hq.
Qed.

(** When every step succeeds, the inline processing writes
    [data/<documentId>.json] whose page p carries the relative path of
    image p when p is at most the number of converted images and null
    beyond, lists the image references 1..k, and removes the temp PDF. *)
Theorem inline_processing_pages env ext n w body N imgs :
  let id := nat_to_string n in
  env_fetch env = inl body ->
  (forall path, env_write_ok env path = true) ->
  env_load env = inl N ->
  ext_convert ext None = Some imgs ->
  match InlineImages.processing env ext n w with
  | (w', r) =>
      r = Ok tt /\
      fs_read (contentJsonPath env id) (files w') =
        Some (JsonDoc (JObj [("documentId", JNum n); ("pageCount", JNum N);
          ("pages", JArr (map (fun p =>
             JObj [("pageNumber", JNum p); ("content", JStr (ext_page_text ext p));
                   ("metadata", ext_page_meta ext p);
                   ("image", if p <=? List.length imgs then JStr (InlineImages.relativeImagePath id p)
                             else JNull)]) (seq 1 N)));
          ("images", JArr (map (fun p => JObj [("pageNumber", JNum p);
                                               ("imagePath", JStr (InlineImages.relativeImagePath id p))])
                               (seq 1 (List.length imgs))))])) /\
      fs_read (tempFilePath env id) (files w') = None
  end.
Proof.
  intros id Hf Hw Hl Hc.
  unfold InlineImages.processing, loader_load, pdf2img_convert, bind, fetch_pdf, ret.
  fold id. rewrite Hf. cbv beta iota. unfold writeFile at 1. rewrite Hw. cbv beta iota.
  rewrite Hl, Hc. cbv beta iota.
  match goal with
  | |- context [InlineImages.save_images env id 1 imgs ?w1] =>
      pose proof (save_images_ok env id imgs 1 w1 Hw) as Hr;
      pose proof (save_images_files env id imgs (tempFilePath env id) 1 w1
                    (fun i => imagePath_ne_temp env id i id)) as Ht;
      destruct (InlineImages.save_images env id 1 imgs w1) as [w2 r2]
  end.
  simpl in Hr, Ht. subst r2. rewrite fs_read_put_same in Ht.
  unfold writeFile. rewrite Hw. unfold unlink. simpl.
  rewrite fs_exists_read, fs_read_put_other, Ht by apply contentJsonPath_ne_temp.
  simpl. repeat split.
  - rewrite fs_read_remove_other by (apply not_eq_sym; apply contentJsonPath_ne_temp).
    rewrite fs_read_put_same, map_map.
    erewrite map_ext_in; [reflexivity|].
    intros p Hp. apply in_seq in Hp.
    unfold InlineImages.page_json. rewrite image_for_seq by lia. reflexivity.
  - apply fs_read_remove_same.
Qed.

Lemma inline_processing_pages_witness :
  match InlineImages.processing (env_all_ok 3) sample_ext 7 (init_world fresh_doc [] 0) with
  | (w', r) =>
      r = Ok tt /\
      fs_read (contentJsonPath (env_all_ok 3) (nat_to_string 7)) (files w') =
        Some (JsonDoc (JObj [("documentId", JNum 7); ("pageCount", JNum 3);
          ("pages", JArr (map (fun p =>
             JObj [("pageNumber", JNum p); ("content", JStr (ext_page_text sample_ext p));
                   ("metadata", ext_page_meta sample_ext p);
                   ("image", if p <=? List.length ["png 1"; "png 2"]
                             then JStr (InlineImages.relativeImagePath (nat_to_string 7) p)
                             else JNull)]) (seq 1 3)));
          ("images", JArr (map (fun p => JObj [("pageNumber", JNum p);
                                               ("imagePath", JStr (InlineImages.relativeImagePath (nat_to_string 7) p))])
                               (seq 1 (List.length ["png 1"; "png 2"]))))])) /\
      fs_read (tempFilePath (env_all_ok 3) (nat_to_string 7)) (files w') = None
  end.
Proof. apply (inline_processing_pages (env_all_ok 3) sample_ext 7 _ "%PDF-1.7" 3); reflexivity. Defined.

(** The batch-upload action starts its background task exactly when it
    reports success, for the truthy id it returns; a failure starts
    nothing and leaves at most one new row, whose id is missing or 0. *)
Theorem batch_save_outcome env ext senv dd s :
  let '(s', r, bg) := BatchUpload.saveDocument env ext senv dd s in
  (sr_success r = true ->
   exists id, id <> 0 /\ sr_documentId r = Some id /\ bg = Some (BatchUpload.background env ext id)) /\
  (sr_success r = false ->
   bg = None /\ sr_documentId r = None /\
   (documents s' = documents s \/
    exists uid oid, truthy_id oid = None /\ documents s' = (documents s ++ [new_row uid dd oid])%list)).
Proof.
  unfold BatchUpload.saveDocument.
  destruct (negb (sv_find_ok senv)); [split; [intros Hc; discriminate Hc|auto]|].
  destruct (findFirst_user s (dd_userId dd)) as [uid|]; [|split; [intros Hc; discriminate Hc|auto]].
  destruct (sv_insert senv) as [oid|]; [|split; [intros Hc; discriminate Hc|auto]].
  destruct (truthy_id oid) as [id|] eqn:Ht.
  - split; [|intros Hc; discriminate Hc]. intros _.
    destruct oid as [[|k]|]; simpl in Ht; try discriminate Ht. injection Ht as <-.
    exists (S k). repeat split. discriminate.
  - split; [intros Hc; discriminate Hc|]. intros _. repeat split. right. exists uid, oid. auto.
Qed.

(** The same for the text-chunking action of src/unnamed/part_000. *)
Theorem legacy_save_outcome env ext senv dd s :
  let '(s', r, bg) := Legacy.saveDocument env ext senv dd s in
  (sr_success r = true ->
   exists id, id <> 0 /\ sr_documentId r = Some id /\ bg = Some (Legacy.background env ext id)) /\
  (sr_success r = false ->
   bg = None /\ sr_documentId r = None /\
   (documents s' = documents s \/
    exists uid oid, truthy_id oid = None /\ documents s' = (documents s ++ [new_row uid dd oid])%list)).
Proof.
  unfold Legacy.saveDocument.
  destruct (negb (sv_find_ok senv)); [split; [intros Hc; discriminate Hc|auto]|].
  destruct (findFirst_user s (dd_userId dd)) as [uid|]; [|split; [intros Hc; discriminate Hc|auto]].
  destruct (sv_insert senv) as [oid|]; [|split; [intros Hc; discriminate Hc|auto]].
  destruct (truthy_id oid) as [id|] eqn:Ht.
  - split; [|intros Hc; discriminate Hc]. intros _.
    destruct oid as [[|k]|]; simpl in Ht; try discriminate Ht. injection Ht as <-.
    exists (S k). repeat split. discriminate.
  - split; [intros Hc; discriminate Hc|]. intros _. repeat split. right. exists uid, oid. auto.
Qed.

(** The title [handleUpload] sends is never empty. *)
Theorem choose_title_nonempty documentTitle name : choose_title documentTitle name <> [].
Proof.
  unfold choose_title.
  destruct (trim documentTitle) as [|c t]; [|discriminate]. simpl.
  destruct (strip_ext name) as [|c b]; discriminate.
Qed.

Lemma no_sep_dot a b : no_sep (a ++ 46%N :: b)%list = false.
Proof. induction a as [|c a IH]; simpl; [reflexivity|]. rewrite IH. apply andb_false_r. Qed.

Lemma strip_ext_base base ext :
  ext <> [] -> no_sep ext = true -> strip_ext (base ++ 46%N :: ext)%list = base.
Proof.
  intros Hne Hs. induction base as [|c base IH]; simpl.
  - destruct ext as [|e ext]; [congruence|]. simpl in Hs |- *. rewrite Hs. reflexivity.
  - rewrite no_sep_dot, andb_false_r, IH. reflexivity.
Qed.

(** With a title that is blank for [String.prototype.trim] (which also
    strips non-ASCII spaces such as U+00A0 and U+FEFF), a file named
    [base.ext] (an extension without '/' or '.') is titled [base]; a file
    named [.ext] is titled "Untitled Document". *)
Theorem choose_title_from_file_name documentTitle base ext :
  trim documentTitle = [] -> ext <> [] -> no_sep ext = true ->
  choose_title documentTitle (base ++ js "." ++ ext)%list =
  if js_truthy base then base else js "Untitled Document".
Proof.
  intros Ht Hne Hs. unfold choose_title. rewrite Ht. simpl.
  rewrite strip_ext_base by assumption. reflexivity.
Qed.

Lemma choose_title_from_file_name_witness :
  trim [160%N; 65279%N; 8232%N; 32%N] = [] /\ js "pdf" <> [] /\ no_sep (js "pdf") = true /\
  choose_title [160%N; 65279%N; 8232%N; 32%N] (js "notes" ++ js "." ++ js "pdf")%list =
  if js_truthy (js "notes") then js "notes" else js "Untitled Document".
Proof.
  split; [reflexivity|]. split; [discriminate|]. split; [reflexivity|].
  apply choose_title_from_file_name; [reflexivity | discriminate | reflexivity].
Defined.

(** [handleSendMessage] either does nothing (a blank input) or posts
    exactly one non-blank trimmed body, clears the input, and shows the
    untrimmed user message right after the previous history, which it
    keeps. *)
Theorem send_message_never_posts_blank reply st :
  let st' := handleSendMessage reply st in
  (st' = st /\ trim (message st) = []) \/
  (posted st' = (posted st ++ [trim (message st)])%list /\ trim (message st) <> [] /\
   message st' = [] /\
   nth_error (chatMessages st') (List.length (chatMessages st)) = Some (mkChatMessage (message st) true) /\
   exists l, chatMessages st' = (chatMessages st ++ l)%list).
Proof.
  unfold handleSendMessage.
  destruct (trim (message st)) as [|c t] eqn:E; [left; auto|right]. simpl.
  assert (Hne : c :: t <> []) by discriminate.
  destruct reply as [m|]; simpl; (split; [reflexivity|]); (split; [exact Hne|]); (split; [reflexivity|]).
  - rewrite <- app_assoc. split; [|eexists; reflexivity].
    rewrite nth_error_app2, Nat.sub_diag by lia. reflexivity.
  - split; [|eexists; reflexivity].
    rewrite nth_error_app2, Nat.sub_diag by lia. reflexivity.
Qed.
